(** * x402 Bazaar client: a shallow embedding of [x402_client.py]

    The development follows [src/x402_bazaar/x402_client.py].  Python
    values that come out of [response.json()] are kept as an untyped
    tree ([pyval]); dictionaries are finite maps with string keys, so
    that [{**a, **b}] is a map union and [d.get(k, default)] a lookup
    with default.  Exceptions are explicit: every operation that can
    raise returns a [result], and the methods of the client run in a
    small monad [io] that threads the log of the requests handed to the
    HTTP session.  Logging calls are dropped, except where building the
    log line can itself raise ([len(services)] in [discover_services]).

    Strings are sequences of 8-bit characters.  [upper] and [lower]
    are Python's [str.upper] and [str.lower]: written out on the
    strings that are all ASCII, and left to the Unicode tables, which
    the development does not fix, on every other string. *)

From Stdlib Require Import ZArith Ascii DecimalString.
From Stdlib Require String.
From stdpp Require Import gmap strings list fin_maps.

Set Warnings "-register-all".
Open Scope Z_scope.

(** ** Text *)

Definition ascii_upper (c : ascii) : ascii :=
  if Ascii.leb "a" c && Ascii.leb c "z"
  then ascii_of_N (N_of_ascii c - 32) else c.

Definition ascii_lower (c : ascii) : ascii :=
  if Ascii.leb "A" c && Ascii.leb c "Z"
  then ascii_of_N (N_of_ascii c + 32) else c.

Fixpoint str_map (f : ascii → ascii) (s : string) : string :=
  match s with
  | EmptyString => EmptyString
  | String c s' => String (f c) (str_map f s')
  end.

(** [s.isascii()]: every character is below 128. *)
Definition ascii_below_128 (c : ascii) : bool :=
  match c with Ascii _ _ _ _ _ _ _ top => negb top end.

Fixpoint is_ascii (s : string) : bool :=
  match s with
  | EmptyString => true
  | String c s' => ascii_below_128 c && is_ascii s'
  end.

(** [q in s] on two strings: [q] occurs in [s] as a contiguous block. *)
Fixpoint str_contains (q s : string) : bool :=
  String.prefix q s ||
  match s with
  | EmptyString => false
  | String _ s' => str_contains q s'
  end.

(** [s[:n]]. *)
Fixpoint str_take (n : nat) (s : string) : string :=
  match n, s with
  | S n', String c s' => String c (str_take n' s')
  | _, _ => EmptyString
  end.

(** [list(s)]: the one-character strings of [s], in order. *)
Fixpoint str_chars (s : string) : list string :=
  match s with
  | EmptyString => []
  | String c s' => String c EmptyString :: str_chars s'
  end.

(** Decimal rendering of an [int], as an f-string does it. *)
Definition string_of_Z (z : Z) : string := NilZero.string_of_int (Z.to_int z).

(** ** Case mapping

    [str.upper] and [str.lower] follow the Unicode tables.  On a string
    that is all ASCII they map the letters a-z and A-Z and nothing else,
    which is written out here; on any other string their result is
    taken from [unicode_upper] and [unicode_lower], which stand for
    Python's own mapping and are left open, so that what is proved
    holds whatever that mapping does. *)

Section Python.

Variable unicode_upper : string → string.
Variable unicode_lower : string → string.

(** [s.upper()] and [s.lower()]. *)
Definition upper (s : string) : string :=
  if is_ascii s then str_map ascii_upper s else unicode_upper s.
Definition lower (s : string) : string :=
  if is_ascii s then str_map ascii_lower s else unicode_lower s.

(** Two strings are equal up to case when their lower-casings agree
    (the comparison [a.lower() == b.lower()]). *)
Definition eq_nocase (a b : string) : Prop := lower a = lower b.

#[global] Instance eq_nocase_dec (a b : string) : Decision (eq_nocase a b) :=
  decide (lower a = lower b).

(** ** Python values *)

Inductive pyval : Type :=
| PNone
| PBool (b : bool)
| PInt (z : Z)
| PFloat (bits : N)          (* a binary64, by its bit pattern; never computed with *)
| PStr (s : string)
| PList (l : list pyval)
| PDict (d : gmap string pyval).

(** ** Exceptions *)

Inductive exc_class : Type :=
| Timeout              (* requests.Timeout and its subclasses *)
| ConnectionError      (* requests.ConnectionError *)
| HTTPError            (* requests.HTTPError, from raise_for_status *)
| RequestException     (* any other requests.RequestException *)
| JSONDecodeError      (* json.JSONDecodeError, from response.json() *)
| AttributeError
| TypeError
| OtherException.      (* any other subclass of Exception *)

Record pyexc : Type := Exc { exc_type : exc_class; exc_str : string }.

(** [isinstance(e, requests.Timeout)]. *)
Definition is_timeout (e : pyexc) : bool :=
  match exc_type e with Timeout => true | _ => false end.

(** [isinstance(e, requests.RequestException)]. *)
Definition is_request_exception (e : pyexc) : bool :=
  match exc_type e with
  | Timeout | ConnectionError | HTTPError | RequestException => true
  | _ => false
  end.

Definition is_json_decode_error (e : pyexc) : bool :=
  match exc_type e with JSONDecodeError => true | _ => false end.

Inductive result (A : Type) : Type :=
| Return (a : A)
| Raise (e : pyexc).
#[global] Arguments Return {A} a.
#[global] Arguments Raise {A} e.

(** Sequencing stops at the first exception; [x ← r; k] is stdpp's
    notation for [mbind]. *)
#[global] Instance result_ret : MRet result := λ A a, Return a.
#[global] Instance result_bind : MBind result := λ A B k r,
  match r with
  | Return a => k a
  | Raise e => Raise e
  end.

Definition attribute_error (what : string) : pyexc := Exc AttributeError what.
Definition type_error (what : string) : pyexc := Exc TypeError what.

(** [o.get(k, default)]: only a dict has a [get]. *)
Definition py_get (o : pyval) (k : string) (dflt : pyval) : result pyval :=
  match o with
  | PDict d => Return (default dflt (d !! k))
  | _ => Raise (attribute_error "get")
  end.

(** [o.lower()]: only a str has a [lower]. *)
Definition py_lower (o : pyval) : result string :=
  match o with
  | PStr s => Return (lower s)
  | _ => Raise (attribute_error "lower")
  end.

(** [iter(o)]: a list gives its items, a str its characters, a dict its
    keys; the other values are not iterable. *)
Definition py_iter (o : pyval) : result (list pyval) :=
  match o with
  | PList l => Return l
  | PStr s => Return (PStr <$> str_chars s)
  | PDict d => Return (PStr <$> (map_to_list d).*1)
  | _ => Raise (type_error "object is not iterable")
  end.

(** [len(o)]. *)
Definition py_len (o : pyval) : result Z :=
  match o with
  | PList l => Return (Z.of_nat (length l))
  | PStr s => Return (Z.of_nat (String.length s))
  | PDict d => Return (Z.of_nat (size d))
  | _ => Raise (type_error "object has no len()")
  end.

(** [{**o, ...}]: unpacking needs a mapping. *)
Definition py_unpack (o : pyval) : result (gmap string pyval) :=
  match o with
  | PDict d => Return d
  | _ => Raise (type_error "object is not a mapping")
  end.

(** Truth value of an [Optional[str]] in [if x:] and [x or y]. *)
Definition truthy (x : option string) : bool :=
  match x with
  | Some s => negb (String.eqb s "")
  | None => false
  end.

(** ** The HTTP session *)

Inductive http_method : Type := GET | POST.

(** One call of [session.get] or [session.post], by its arguments. *)
Record Request : Type := {
  rq_method : http_method;
  rq_url : string;
  rq_params : option (gmap string pyval);     (* params=  *)
  rq_json : option (gmap string pyval);       (* json=    *)
  rq_headers : gmap string string;            (* headers= *)
  rq_timeout : Z                              (* timeout= *)
}.

(** What the client reads of a [requests.Response]: [json] is the value
    of [response.json()], [None] when that call raises
    [JSONDecodeError]. *)
Record Response : Type := {
  status_code : Z;
  text : string;
  json : option pyval
}.

Definition response_json (r : Response) : result pyval :=
  match json r with
  | Some v => Return v
  | None => Raise (Exc JSONDecodeError "Expecting value")
  end.

(** [response.raise_for_status()]; of the message only the status code
    is kept. *)
Definition raise_for_status (r : Response) : result unit :=
  if (400 <=? status_code r) && (status_code r <? 600)
  then Raise (Exc HTTPError (string_of_Z (status_code r)))
  else Return ().

(** A computation of the client: it starts from the log of the requests
    made so far and ends with a value or an exception, and the log
    extended by its own requests. *)
Definition io (A : Type) : Type := list Request → result A * list Request.

#[global] Instance io_ret : MRet io := λ A a log, (Return a, log).
#[global] Instance io_bind : MBind io := λ A B k m log,
  match m log with
  | (Return a, log') => k a log'
  | (Raise e, log') => (Raise e, log')
  end.

Definition raise {A} (e : pyexc) : io A := λ log, (Raise e, log).

Definition lift {A} (r : result A) : io A := λ log, (r, log).

(** [try: body / except ...:] where [handler e] is [Some k] when one of
    the except clauses matches [e] and [k] is its block. *)
Definition try_except {A} (body : io A) (handler : pyexc → option (io A)) : io A :=
  λ log,
    match body log with
    | (Return a, log') => (Return a, log')
    | (Raise e, log') =>
        match handler e with
        | Some k => k log'
        | None => (Raise e, log')
        end
    end.

(** The same for code that does no request. *)
Definition try_catch {A} (body : result A) (handler : pyexc → option (result A)) : result A :=
  match body with
  | Return a => Return a
  | Raise e => default (Raise e) (handler e)
  end.

(** ** The client *)

Definition BASE_URL : string := "https://x402-api.onrender.com".
Definition TIMEOUT : Z := 30.
Definition PAYMENT_ADDRESS : string := "0xfb1c478BD5567BdcD39782E0D6D23418bFda2430".
Definition PAYMENT_CHAIN : string := "base".

Record X402Client : Type := {
  base_url : string;
  timeout : Z;
  session_headers : gmap string string
}.

(** [X402Client.__init__]. *)
Definition init (base_url : option string) (timeout : Z) : X402Client :=
  {| base_url := if truthy base_url then default BASE_URL base_url else BASE_URL;
     timeout := timeout;
     session_headers := {[ "User-Agent" := "x402-autogpt-plugin/0.1.0";
                           "Accept" := "application/json" ]} |}.

Section Client.

(** The far side of the session: what a request is answered with,
    given the requests that came before it. *)
Variable server : list Request → Request → result Response.

(** [repr] of the values whose rendering the client does not fix:
    floats and containers. *)
Variable py_repr : pyval → string.

(** [f"{v}"]. *)
Definition py_format (v : pyval) : string :=
  match v with
  | PStr s => s
  | PNone => "None"
  | PBool true => "True"
  | PBool false => "False"
  | PInt z => string_of_Z z
  | _ => py_repr v
  end.

Definition send (rq : Request) : io Response :=
  λ log, (server log rq, log ++ [rq]).

(** [self.session.get(url, params=, headers=, timeout=)]. *)
Definition session_get (url : string) (params : option (gmap string pyval))
    (headers : gmap string string) (timeout : Z) : io Response :=
  send {| rq_method := GET; rq_url := url; rq_params := params;
          rq_json := None; rq_headers := headers; rq_timeout := timeout |}.

(** [self.session.post(url, json=, headers=, timeout=)]. *)
Definition session_post (url : string) (body : option (gmap string pyval))
    (headers : gmap string string) (timeout : Z) : io Response :=
  send {| rq_method := POST; rq_url := url; rq_params := None;
          rq_json := body; rq_headers := headers; rq_timeout := timeout |}.

(** *** [discover_services] *)

Definition discover_services (self : X402Client) : io pyval :=
  try_except
    (let url := base_url self +:+ "/api/services" in
     response ← session_get url None ∅ (timeout self);
     _ ← lift (raise_for_status response);
     services ← lift (response_json response);
     _ ← lift (py_len services);          (* the log line renders len(services) *)
     mret services)
    (λ e, if is_request_exception e then Some (raise e) else None).

(** *** [search_services] *)

(** [any(q in tag.lower() for tag in tags)]. *)
Fixpoint any_tag (q : string) (tags : list pyval) : result bool :=
  match tags with
  | [] => Return false
  | tag :: rest =>
      t ← py_lower tag;
      if str_contains q t then Return true else any_tag q rest
  end.

(** The condition of the comprehension, with its short-circuits. *)
Definition svc_matches (q : string) (svc : pyval) : result bool :=
  name ← py_get svc "name" (PStr "");
  name ← py_lower name;
  if str_contains q name then Return true else
  description ← py_get svc "description" (PStr "");
  description ← py_lower description;
  if str_contains q description then Return true else
  tags ← py_get svc "tags" (PList []);
  tags ← py_iter tags;
  any_tag q tags.

(** [[svc for svc in services if ...]] over the items of [services]. *)
Fixpoint comprehension (q : string) (services : list pyval) : result (list pyval) :=
  match services with
  | [] => Return []
  | svc :: rest =>
      keep ← svc_matches q svc;
      results ← comprehension q rest;
      Return (if keep : bool then svc :: results else results)
  end.

Definition search_services (self : X402Client) (query : string) : io (list pyval) :=
  try_except
    (services ← discover_services self;
     let q := lower query in
     services ← lift (py_iter services);
     results ← lift (comprehension q services);
     mret results)
    (λ e, Some (raise e)).

(** *** [call_api] *)

(** The per-call headers: the payment proof, when there is one. *)
Definition payment_headers (payment_tx_hash : option string) : gmap string string :=
  if truthy payment_tx_hash
  then {[ "X-Payment-TxHash" := default "" payment_tx_hash;
          "X-Payment-Chain" := PAYMENT_CHAIN ]}
  else ∅.

(** The payload put in place of a 402 body that is not JSON. *)
Definition fallback_payment_details : gmap string pyval :=
  {[ "amount" := PStr "unknown";
     "address" := PStr PAYMENT_ADDRESS;
     "chain" := PStr PAYMENT_CHAIN ]}.

(** The [instructions] dict of the 402 branch. *)
Definition instructions (cost_usdc : pyval) : gmap string pyval :=
  {[ "message" := PStr ("Payment required: " +:+ py_format cost_usdc +:+ " USDC");
     "instructions" := PList [
       PStr ("1. Send " +:+ py_format cost_usdc +:+ " USDC on " +:+
             upper PAYMENT_CHAIN +:+ " to: " +:+ PAYMENT_ADDRESS);
       PStr "2. Wait for transaction confirmation";
       PStr "3. Call this endpoint again with transaction hash" ];
     "payment_address" := PStr PAYMENT_ADDRESS;
     "payment_chain" := PStr PAYMENT_CHAIN;
     "payment_token" := PStr "USDC";
     "payment_amount" := cost_usdc ]}.

(** An outcome with [success] false and an [error]. *)
Definition failure (error : pyval) : gmap string pyval :=
  {[ "success" := PBool false; "error" := error ]}.

(** The part of [call_api] after the request ("Handle response"). *)
Definition handle_response (payment_tx_hash : option string) (response : Response)
    : result (gmap string pyval) :=
  if status_code response =? 200 then
    data ← try_catch (response_json response)
             (λ e, if is_json_decode_error e
                   then Some (Return (PDict {[ "text" := PStr (text response) ]}))
                   else None);
    Return {[ "success" := PBool true;
              "data" := data;
              "payment_status" :=
                PStr (if truthy payment_tx_hash then "completed" else "free") ]}
  else if status_code response =? 402 then
    payment_details ← try_catch (response_json response)
             (λ e, if is_json_decode_error e
                   then Some (Return (PDict fallback_payment_details))
                   else None);
    fallback ← py_get payment_details "required_payment" (PStr "unknown");
    cost_usdc ← py_get payment_details "amount" fallback;
    payment_details ← py_unpack payment_details;
    Return {[ "success" := PBool false;
              "payment_required" := PBool true;
              "payment_details" := PDict (instructions cost_usdc ∪ payment_details);
              "cost_usdc" := cost_usdc ]}
  else if status_code response =? 400 then
    error_msg ← try_catch
             (error_data ← response_json response;
              py_get error_data "error" (PStr "Bad request"))
             (λ e, if is_json_decode_error e
                   then Some (Return (PStr (text response)))
                   else None);
    Return (failure error_msg)
  else if status_code response =? 429 then
    Return (failure (PStr "Rate limit exceeded. Please try again later."))
  else if status_code response =? 500 then
    Return (failure (PStr "Server error. Please try again later."))
  else
    error_msg ← try_catch
             (error_data ← response_json response;
              py_get error_data "error"
                (PStr ("HTTP " +:+ string_of_Z (status_code response))))
             (λ e, if is_json_decode_error e
                   then Some (Return (PStr ("HTTP " +:+ string_of_Z (status_code response)
                                            +:+ ": " +:+ str_take 200 (text response))))
                   else None);
    Return (failure error_msg).

Definition call_api (self : X402Client) (endpoint : string)
    (params : option (gmap string pyval)) (method : string)
    (payment_tx_hash : option string) : io (gmap string pyval) :=
  try_except
    (let url := base_url self +:+ endpoint in
     let headers := payment_headers payment_tx_hash in
     if String.eqb (upper method) "GET" then
       response ← session_get url params headers (timeout self);
       lift (handle_response payment_tx_hash response)
     else if String.eqb (upper method) "POST" then
       response ← session_post url params headers (timeout self);
       lift (handle_response payment_tx_hash response)
     else
       mret (failure (PStr ("Unsupported HTTP method: " +:+ method))))
    (λ e,
       if is_timeout e then
         Some (mret (failure (PStr ("Request timeout after " +:+
                                    string_of_Z (timeout self) +:+ " seconds"))))
       else if is_request_exception e then
         Some (mret (failure (PStr ("Request error: " +:+ exc_str e))))
       else None).

(** *** [get_service_details] *)

(** The loop over the services: the first one whose name is the wanted
    one up to case. *)
Fixpoint first_named (service_name : string) (services : list pyval)
    : result (option pyval) :=
  match services with
  | [] => Return None
  | svc :: rest =>
      name ← py_get svc "name" (PStr "");
      name ← py_lower name;
      if String.eqb name (lower service_name) then Return (Some svc)
      else first_named service_name rest
  end.

Definition get_service_details (self : X402Client) (service_name : string)
    : io (option pyval) :=
  try_except
    (services ← discover_services self;
     services ← lift (py_iter services);
     lift (first_named service_name services))
    (λ e, Some (mret None)).

End Client.

(** ** Requests of [call_api] *)

Definition verb_name (verb : http_method) : string :=
  match verb with GET => "GET" | POST => "POST" end.

(** The request [call_api] hands to the session for a supported method:
    [params] travels as the query of a GET and as the JSON body of a POST. *)
Definition request_for (verb : http_method) (self : X402Client) (endpoint : string)
    (params : option (gmap string pyval)) (payment_tx_hash : option string) : Request :=
  {| rq_method := verb;
     rq_url := base_url self +:+ endpoint;
     rq_params := match verb with GET => params | POST => None end;
     rq_json := match verb with GET => None | POST => params end;
     rq_headers := payment_headers payment_tx_hash;
     rq_timeout := timeout self |}.

(** The two except clauses of [call_api], applied to an exception. *)
Definition on_exception (self : X402Client) (e : pyexc) : result (gmap string pyval) :=
  if is_timeout e then
    Return (failure (PStr ("Request timeout after " +:+ string_of_Z (timeout self)
                           +:+ " seconds")))
  else if is_request_exception e then
    Return (failure (PStr ("Request error: " +:+ exc_str e)))
  else Raise e.

(** ** Outcomes, as the specification words them *)

(** The cost of a 402 body: the value under [amount] when the key is
    there, else the value under [required_payment] when that key is
    there, else the text [unknown]. *)
Definition resolve_cost (body : gmap string pyval) : pyval :=
  match body !! "amount" with
  | Some v => v
  | None =>
      match body !! "required_payment" with
      | Some v => v
      | None => PStr "unknown"
      end
  end.

(** The keys the client writes into the payment details. *)
Definition synthesized_keys : list string :=
  ["message"; "instructions"; "payment_address"; "payment_chain";
   "payment_token"; "payment_amount"].

(** The body the payment details start from: the parsed object, or the
    fallback payload when the body is not JSON. *)
Definition payment_body (parsed : option (gmap string pyval)) : gmap string pyval :=
  default fallback_payment_details parsed.

(** A success, and a payment request. *)
Definition is_success (o : gmap string pyval) : Prop :=
  o !! "success" = Some (PBool true).
Definition is_payment_required (o : gmap string pyval) : Prop :=
  o !! "payment_required" = Some (PBool true).

(** The outcome of a 200 response. *)
Definition success_outcome (payment_tx_hash : option string) (response : Response)
    : gmap string pyval :=
  {[ "success" := PBool true;
     "data" := default (PDict {[ "text" := PStr (text response) ]}) (json response);
     "payment_status" := PStr (if truthy payment_tx_hash then "completed" else "free") ]}.

(** The outcome of a 402 response whose details start from [body]. *)
Definition payment_required_outcome (py_repr : pyval → string)
    (body : gmap string pyval) : gmap string pyval :=
  {[ "success" := PBool false;
     "payment_required" := PBool true;
     "payment_details" := PDict (instructions py_repr (resolve_cost body) ∪ body);
     "cost_usdc" := resolve_cost body ]}.

(** The statuses with a branch of their own in [call_api]. *)
Definition known_status (code : Z) : bool :=
  (code =? 200) || (code =? 402) || (code =? 400) || (code =? 429) || (code =? 500).

(** ** Services, as the specification words them *)

Definition text_or_absent (field : option pyval) : bool :=
  match field with
  | None | Some (PStr _) => true
  | _ => false
  end.

Definition is_text (v : pyval) : bool :=
  match v with PStr _ => true | _ => false end.

Definition tags_or_absent (field : option pyval) : bool :=
  match field with
  | None => true
  | Some (PList tags) => forallb is_text tags
  | _ => false
  end.

(** A service record: a dict whose [name] and [description], when
    present, are strings and whose [tags], when present, is a list of
    strings.  Any of the three may be missing. *)
Definition is_service (svc : pyval) : bool :=
  match svc with
  | PDict d =>
      text_or_absent (d !! "name") && text_or_absent (d !! "description")
      && tags_or_absent (d !! "tags")
  | _ => false
  end.

Definition text_of (v : pyval) : string :=
  match v with PStr s => s | _ => "" end.

Definition svc_name (svc : pyval) : string :=
  match svc with PDict d => text_of (default (PStr "") (d !! "name")) | _ => "" end.

Definition svc_description (svc : pyval) : string :=
  match svc with PDict d => text_of (default (PStr "") (d !! "description")) | _ => "" end.

Definition svc_tags (svc : pyval) : list string :=
  match svc with
  | PDict d => match d !! "tags" with Some (PList tags) => text_of <$> tags | _ => [] end
  | _ => []
  end.

(** The lower-cased query occurs in the lower-cased name, or in the
    lower-cased description, or in some lower-cased tag. *)
Definition service_matches (query : string) (svc : pyval) : bool :=
  str_contains (lower query) (lower (svc_name svc))
  || str_contains (lower query) (lower (svc_description svc))
  || existsb (λ tag, str_contains (lower query) (lower tag)) (svc_tags svc).

(** The name of the service is the wanted one up to case. *)
Definition service_named (service_name : string) (svc : pyval) : bool :=
  String.eqb (lower (svc_name svc)) (lower service_name).

(** The request of [discover_services]. *)
Definition discovery_request (self : X402Client) : Request :=
  {| rq_method := GET; rq_url := base_url self +:+ "/api/services";
     rq_params := None; rq_json := None; rq_headers := ∅;
     rq_timeout := timeout self |}.

(** What [discover_services] makes of the answer to its request. *)
Definition discovered (answer : result Response) : result pyval :=
  response ← answer;
  _ ← raise_for_status response;
  services ← response_json response;
  _ ← py_len services;
  Return services.

(** ** Sample clients, servers and responses *)

(** The client as [X402Client()] builds it. *)
Definition production : X402Client := init None TIMEOUT.

(** A server that answers every request with [r]. *)
Definition answering (r : Response) : list Request → Request → result Response :=
  λ _ _, Return r.

(** A session on which every request raises [e]. *)
Definition failing (e : pyexc) : list Request → Request → result Response :=
  λ _ _, Raise e.

Definition sample_repr : pyval → string := λ _, "<object>".

(** A stand-in for the case mapping outside ASCII; the samples below are
    all ASCII, so that it is never consulted. *)
Definition unmapped : string → string := λ s, s.

Definition paris : option (gmap string pyval) := Some {[ "city" := PStr "Paris" ]}.

(** A response as the unit tests mock it: a status, then either the
    parsed body or the raw text of a body that is not JSON. *)
Definition json_response (code : Z) (body : pyval) : Response :=
  {| status_code := code; text := ""; json := Some body |}.
Definition text_response (code : Z) (raw : string) : Response :=
  {| status_code := code; text := raw; json := None |}.

Definition weather_service : pyval :=
  PDict {[ "name" := PStr "Weather API"; "endpoint" := PStr "/api/weather" ]}.
Definition crypto_service : pyval :=
  PDict {[ "name" := PStr "Crypto API"; "description" := PStr "bitcoin prices";
           "tags" := PList [PStr "crypto"; PStr "Finance"] ]}.
Definition nameless_service : pyval := PDict ∅.

(** Three services as discovery may list them: one with a name only,
    one with every field, one with no field at all. *)
Definition catalogue : list pyval := [weather_service; crypto_service; nameless_service].

(** Bodies that are JSON but not JSON objects. *)
Definition array_402 : Response :=
  {| status_code := 402; text := "[]"; json := Some (PList []) |}.
Definition null_402 : Response :=
  {| status_code := 402; text := "null"; json := Some PNone |}.
Definition array_404 : Response :=
  {| status_code := 404; text := "[]"; json := Some (PList []) |}.

(** A 402 body that tries to redirect the payment. *)
Definition redirecting_body : gmap string pyval :=
  {[ "amount" := PStr "0.05"; "payment_address" := PStr "0x0000"; "network" := PStr "mainnet" ]}.

Definition required_payment_body : gmap string pyval :=
  {[ "required_payment" := PStr "0.02" ]}.

(** ** The rest of the client *)

Section ClientRest.

Variable server : list Request → Request → result Response.
Variable py_repr : pyval → string.

(** *** [get_marketplace_info] *)

Definition get_marketplace_info (self : X402Client) : io pyval :=
  try_except
    (let url := base_url self +:+ "/" in
     response ← session_get server url None ∅ (timeout self);
     _ ← lift (raise_for_status response);
     info ← lift (try_catch (response_json response)
                    (λ e, if is_json_decode_error e
                          then Some (Return (PDict {[
                                 "name" := PStr "x402 Bazaar";
                                 "status" := PStr "online";
                                 "html" := PStr (str_take 500 (text response)) ]}))
                          else None));
     mret info)
    (λ e, if is_request_exception e then Some (raise e) else None).

(** *** [test_connection] *)

Definition test_connection (self : X402Client) : io bool :=
  try_except
    (response ← session_get server (base_url self +:+ "/") None ∅ (timeout self);
     mret (bool_decide (status_code response ∈ [200; 402; 400])))
    (λ e, Some (mret false)).

(** *** [get_public_stats] *)

Definition get_public_stats (self : X402Client) : io pyval :=
  try_except
    (let url := base_url self +:+ "/api/public-stats" in
     response ← session_get server url None ∅ (timeout self);
     _ ← lift (raise_for_status response);
     stats ← lift (response_json response);
     mret stats)
    (λ e, if is_request_exception e then Some (raise e) else None).

(** *** The convenience methods *)

Definition call_weather_api (self : X402Client) (city : string)
    (payment_tx_hash : option string) : io (gmap string pyval) :=
  call_api server py_repr self "/api/weather" (Some {[ "city" := PStr city ]})
    "GET" payment_tx_hash.

Definition call_search_api (self : X402Client) (query : string)
    (payment_tx_hash : option string) : io (gmap string pyval) :=
  call_api server py_repr self "/api/search" (Some {[ "q" := PStr query ]})
    "GET" payment_tx_hash.

Definition call_crypto_api (self : X402Client) (symbol : string)
    (payment_tx_hash : option string) : io (gmap string pyval) :=
  call_api server py_repr self "/api/crypto" (Some {[ "symbol" := PStr symbol ]})
    "GET" payment_tx_hash.

Definition call_image_api (self : X402Client) (prompt : string)
    (payment_tx_hash : option string) : io (gmap string pyval) :=
  call_api server py_repr self "/api/image" (Some {[ "prompt" := PStr prompt ]})
    "POST" payment_tx_hash.

Definition call_scraper_api (self : X402Client) (url : string)
    (payment_tx_hash : option string) : io (gmap string pyval) :=
  call_api server py_repr self "/api/scrape" (Some {[ "url" := PStr url ]})
    "GET" payment_tx_hash.

End ClientRest.

(** The request of [get_marketplace_info] and of [test_connection]. *)
Definition root_request (self : X402Client) : Request :=
  {| rq_method := GET; rq_url := base_url self +:+ "/";
     rq_params := None; rq_json := None; rq_headers := ∅;
     rq_timeout := timeout self |}.

(** The request of [get_public_stats]. *)
Definition stats_request (self : X402Client) : Request :=
  {| rq_method := GET; rq_url := base_url self +:+ "/api/public-stats";
     rq_params := None; rq_json := None; rq_headers := ∅;
     rq_timeout := timeout self |}.

(** The statuses on which [raise_for_status] raises. *)
Definition error_status (code : Z) : Prop := 400 ≤ code < 600.

(** The values [len] accepts. *)
Definition has_len (v : pyval) : bool :=
  match v with
  | PList _ | PStr _ | PDict _ => true
  | _ => false
  end.

(** A server behind a paywall: a request that carries a payment
    transaction hash is answered 200 with [data], any other 402 with
    [quote]. *)
Definition paywall (data : pyval) (quote : gmap string pyval)
    : list Request → Request → result Response :=
  λ _ rq,
    Return (match rq_headers rq !! "X-Payment-TxHash" with
            | Some _ => json_response 200 data
            | None => json_response 402 (PDict quote)
            end).

(** ** The plugin ([X402BazaarPlugin])

    Of the plugin the hooks that work on typed arguments are modelled:
    [post_command], [on_response] and [_handle_call_api].  The console
    is the list of the texts passed to [print], one per call. *)

(** Truth value of a value in [if v:]. *)
Definition py_truthy (v : pyval) : bool :=
  match v with
  | PNone => false
  | PBool b => b
  | PInt z => negb (z =? 0)
  | PFloat bits => negb ((bits =? 0)%N || (bits =? 2 ^ 63)%N)   (* 0.0 and -0.0 *)
  | PStr s => negb (String.eqb s "")
  | PList l => negb (Nat.eqb (length l) 0)
  | PDict d => negb (Nat.eqb (size d) 0)
  end.

Record X402BazaarPlugin : Type := {
  _enabled : bool;
  _command_cache : gmap string pyval;
  client : X402Client
}.

(** The plugin as [X402BazaarPlugin()] leaves it. *)
Definition register : X402BazaarPlugin :=
  {| _enabled := true; _command_cache := ∅; client := init None 30 |}.

(** The line feed. *)
Definition LF : string := String "010" "".

Section Plugin.

Variable server : list Request → Request → result Response.
Variable py_repr : pyval → string.

(** [json.dumps(v, indent=2)] on a value that came out of JSON. *)
Variable json_dumps : pyval → string.

(** [str(e)]. *)
Variable exc_text : pyexc → string.

(** *** [post_command] *)

Definition post_command (self : X402BazaarPlugin) (command response : string)
    : io string :=
  if negb (_enabled self) then mret response else
  if str_contains "x402" (lower command) || str_contains "api" (lower command) then
    try_except
      (if str_contains "search" (lower command) then
         services ← discover_services server (client self);
         if py_truthy services then
           count ← lift (py_len services);
           mret (response +:+ LF +:+ LF +:+ "[x402 Bazaar] " +:+ string_of_Z count
                 +:+ " APIs available. " +:+ "Use 'x402 list' to see all services.")
         else mret response
       else mret response)
      (λ e, Some (mret response))
  else mret response.

(** *** [_handle_call_api] *)

(** The entry kept about the last call. *)
Definition call_info (endpoint : string) (result : gmap string pyval) : pyval :=
  PDict {[ "endpoint" := PStr endpoint;
           "cost" := default (PStr "unknown") (result !! "cost_usdc");
           "payment_status" := default (PStr "unknown") (result !! "payment_status") ]}.

(** The method returns nothing; what is returned here is the plugin and
    the console as the method leaves them. *)
Definition _handle_call_api (self : X402BazaarPlugin) (endpoint : string)
    (params : option (gmap string pyval)) (method : string) (console : list string)
    : io (X402BazaarPlugin * list string) :=
  let console := console ++ ["[x402 Bazaar] Calling " +:+ method +:+ " " +:+ endpoint
                             +:+ "..."] in
  try_except
    (result ← call_api server py_repr (client self) endpoint params method None;
     let self' := {| _enabled := _enabled self;
                     _command_cache := <["x402_api_call" := call_info endpoint result]>
                                         (_command_cache self);
                     client := client self |} in
     if py_truthy (default PNone (result !! "success")) then
       mret (self', console ++ ["[x402 Bazaar] Success! Response:";
                                json_dumps (default PNone (result !! "data"))])
     else
       mret (self', console ++ ["[x402 Bazaar] Error: " +:+
                                py_format py_repr
                                  (default (PStr "Unknown error") (result !! "error"))]))
    (λ e, Some (mret (self, console ++ ["[x402 Bazaar] Error calling API: " +:+
                                        exc_text e]))).

(** *** [on_response] *)

(** The four lines about the cached call; the first is printed before
    the entry is read. *)
Definition print_call_info (entry : pyval) (console : list string)
    : result unit * list string :=
  let console := console ++ ["[x402 Bazaar] API call completed:"] in
  match py_get entry "endpoint" (PStr "unknown") with
  | Raise e => (Raise e, console)
  | Return endpoint =>
      let console := console ++ ["  Endpoint: " +:+ py_format py_repr endpoint] in
      match py_get entry "cost" (PStr "unknown") with
      | Raise e => (Raise e, console)
      | Return cost =>
          let console := console ++ ["  Cost: " +:+ py_format py_repr cost +:+ " USDC"] in
          match py_get entry "payment_status" (PStr "unknown") with
          | Raise e => (Raise e, console)
          | Return payment =>
              (Return (), console ++ ["  Payment: " +:+ py_format py_repr payment])
          end
      end
  end.

(** The value returned, the plugin and the console as the method
    leaves them. *)
Definition on_response (self : X402BazaarPlugin) (response : string)
    (console : list string) : result string * X402BazaarPlugin * list string :=
  if _enabled self && py_truthy (PDict (_command_cache self)) then
    let '(printed, console) :=
      match _command_cache self !! "x402_api_call" with
      | Some entry => print_call_info entry console
      | None => (Return (), console)
      end in
    match printed with
    | Raise e => (Raise e, self, console)
    | Return _ =>
        (Return response,
         {| _enabled := _enabled self; _command_cache := ∅; client := client self |},
         console)
    end
  else (Return response, self, console).

End Plugin.

(** Sample data for the plugin. *)
Definition sample_dumps : pyval → string := λ _, "{...}".

Definition weather_entry : gmap string pyval :=
  {[ "endpoint" := PStr "/api/weather"; "cost" := PStr "0.02" ]}.

(** A plugin that has a call cached. *)
Definition busy_plugin : X402BazaarPlugin :=
  {| _enabled := true;
     _command_cache := {[ "x402_api_call" := PDict weather_entry ]};
     client := production |}.

Definition forecast : pyval := PDict {[ "temperature" := PInt 20 ]}.

(** * Properties *)

(** ** Text *)

Lemma upper_ascii (s : string) : is_ascii s = true → upper s = str_map ascii_upper s.
Proof. unfold upper. by intros ->. Qed.

Lemma lower_ascii (s : string) : is_ascii s = true → lower s = str_map ascii_lower s.
Proof. unfold lower. by intros ->. Qed.

Lemma ascii_upper_lower (c : ascii) : ascii_upper (ascii_lower c) = ascii_upper c.
Proof. by destruct c as [[] [] [] [] [] [] [] []]. Qed.

Lemma ascii_lower_below_128 (c : ascii) :
  ascii_below_128 (ascii_lower c) = ascii_below_128 c.
Proof. by destruct c as [[] [] [] [] [] [] [] []]. Qed.

Lemma str_upper_lower (s : string) :
  str_map ascii_upper (str_map ascii_lower s) = str_map ascii_upper s.
Proof. induction s as [|c s IH]; simpl; [done|]. by rewrite ascii_upper_lower, IH. Qed.

Lemma is_ascii_lower (s : string) : is_ascii (str_map ascii_lower s) = is_ascii s.
Proof. induction s as [|c s IH]; simpl; [done|]. by rewrite ascii_lower_below_128, IH. Qed.

(** A payment proof counts as given when it is a string that is not empty. *)
Lemma truthy_spec (x : option string) : truthy x = true ↔ ∃ s, x = Some s ∧ s ≠ "".
Proof.
  destruct x as [s|]; simpl.
  - rewrite negb_true_iff, String.eqb_neq. split; [by eauto|]. by intros (? & [= <-] & ?).
  - split; [done|]. by intros (? & ? & _).
Qed.

Lemma app_cons_eq (c : ascii) (a b : string) : String c a +:+ b = String c (a +:+ b).
Proof. reflexivity. Qed.

Lemma prefix_app (q b : string) : String.prefix q (q +:+ b) = true.
Proof.
  induction q as [|c q IH]; [by destruct b|].
  change (String c q +:+ b) with (String c (q +:+ b)). simpl.
  by destruct (Ascii.ascii_dec c c).
Qed.

Lemma str_contains_empty (s : string) : str_contains "" s = true.
Proof. by destruct s. Qed.

Lemma str_contains_here (q b : string) : str_contains q (q +:+ b) = true.
Proof.
  destruct (q +:+ b) eqn:E; unfold str_contains; fold str_contains;
    rewrite <- E, prefix_app; done.
Qed.

Lemma str_contains_app (a q b : string) : str_contains q (a +:+ q +:+ b) = true.
Proof.
  induction a as [|c a IH]; [exact (str_contains_here q b)|].
  change (String c a +:+ q +:+ b) with (String c (a +:+ q +:+ b)).
  unfold str_contains; fold str_contains. rewrite IH. apply orb_true_r.
Qed.

Lemma app_empty_r (s : string) : s +:+ "" = s.
Proof. induction s as [|c s IH]; [done|]. by rewrite app_cons_eq, IH. Qed.

Lemma str_contains_end (a q : string) : str_contains q (a +:+ q) = true.
Proof. rewrite <- (app_empty_r q) at 2. apply str_contains_app. Qed.


Lemma str_take_length (n : nat) (s : string) :
  String.length (str_take n s) = min n (String.length s).
Proof.
  revert s. induction n as [|n IH]; intros [|c s]; simpl; try done.
  by rewrite IH.
Qed.

Lemma str_take_prefix (n : nat) (s : string) : ∃ rest, s = str_take n s +:+ rest.
Proof.
  revert s. induction n as [|n IH]; intros s.
  - exists s. by destruct s.
  - destruct s as [|c s]; [by exists ""|].
    destruct (IH s) as [rest Hrest]. exists rest. simpl. by rewrite app_cons_eq, <- Hrest.
Qed.

Section CallApi.

Variable server : list Request → Request → result Response.
Variable py_repr : pyval → string.

(** [call_api] with a supported method: one request, then the
    response handling, then the except clauses. *)
Lemma call_api_supported self endpoint params method hash log verb :
  upper method = verb_name verb →
  call_api server py_repr self endpoint params method hash log =
    (match server log (request_for verb self endpoint params hash)
             ≫= handle_response py_repr hash with
     | Return o => Return o
     | Raise e => on_exception self e
     end,
     log ++ [request_for verb self endpoint params hash]).
Proof.
  intros Hm.
  unfold call_api, try_except, on_exception. rewrite Hm.
  destruct verb; simpl;
    unfold mbind, io_bind, session_get, session_post, send, lift, request_for; simpl;
    (destruct (server log _) as [r|e]; simpl;
     [destruct (handle_response py_repr hash r) as [o|e]; simpl; [done|]|];
     by destruct (is_timeout e), (is_request_exception e)).
Qed.

(** [call_api] with any other method: no request at all. *)
Lemma call_api_unsupported self endpoint params method hash log :
  upper method ≠ "GET" → upper method ≠ "POST" →
  call_api server py_repr self endpoint params method hash log =
    (Return (failure (PStr ("Unsupported HTTP method: " +:+ method))), log).
Proof.
  intros Hget Hpost.
  unfold call_api, try_except.
  apply String.eqb_neq in Hget, Hpost.
  by rewrite Hget, Hpost.
Qed.

End CallApi.

(** ** Response handling *)

Section HandleResponse.

Variable py_repr : pyval → string.

Lemma get_amount_resolves (body : gmap string pyval) :
  (fallback ← py_get (PDict body) "required_payment" (PStr "unknown");
   py_get (PDict body) "amount" fallback) = Return (resolve_cost body).
Proof.
  unfold resolve_cost. simpl.
  by destruct (body !! "amount"), (body !! "required_payment").
Qed.

Lemma handle_response_200 hash r :
  status_code r = 200 →
  handle_response py_repr hash r = Return (success_outcome hash r).
Proof.
  intros Hs. unfold handle_response, success_outcome, response_json.
  rewrite Hs. simpl. by destruct (json r).
Qed.

Lemma handle_response_402 hash r parsed :
  status_code r = 402 →
  json r = PDict <$> parsed →
  handle_response py_repr hash r
  = Return (payment_required_outcome py_repr (payment_body parsed)).
Proof.
  intros Hs Hj. unfold handle_response, response_json.
  rewrite Hs, Hj. simpl.
  destruct parsed as [body|]; simpl; [|done].
  unfold payment_required_outcome, payment_body, resolve_cost. simpl.
  by destruct (body !! "amount"), (body !! "required_payment").
Qed.

Lemma handle_response_402_not_object hash r v :
  status_code r = 402 →
  json r = Some v →
  (∀ d, v ≠ PDict d) →
  handle_response py_repr hash r = Raise (attribute_error "get").
Proof.
  intros Hs Hj Hv. unfold handle_response, response_json.
  rewrite Hs, Hj. simpl. destruct v; try done. by destruct (Hv d).
Qed.

Lemma handle_response_other hash r :
  known_status (status_code r) = false →
  handle_response py_repr hash r =
    match json r with
    | Some error_data =>
        error_msg ← py_get error_data "error"
                       (PStr ("HTTP " +:+ string_of_Z (status_code r)));
        Return (failure error_msg)
    | None =>
        Return (failure (PStr ("HTTP " +:+ string_of_Z (status_code r) +:+ ": "
                               +:+ str_take 200 (text r))))
    end.
Proof.
  unfold known_status. rewrite !orb_false_iff. intros [[[[H1 H2] H3] H4] H5].
  unfold handle_response, response_json. rewrite H1, H2, H3, H4, H5.
  destruct (json r) as [v|]; simpl; [|done].
  destruct (py_get v _ _) eqn:E; simpl; [done|].
  destruct v; simpl in E; by inversion E.
Qed.

(** Whatever [handle_response] returns is of one of the three shapes,
    by the status alone. *)
Lemma handle_response_returns hash r o :
  handle_response py_repr hash r = Return o →
  (status_code r = 200 ∧ o = success_outcome hash r)
  ∨ (status_code r = 402 ∧ ∃ parsed, json r = PDict <$> parsed
       ∧ o = payment_required_outcome py_repr (payment_body parsed))
  ∨ (status_code r ≠ 200 ∧ status_code r ≠ 402 ∧ ∃ error, o = failure error).
Proof.
  intros H.
  destruct (decide (status_code r = 200)) as [E200|N200].
  { left. split; [done|]. rewrite handle_response_200 in H by done. by inversion H. }
  destruct (decide (status_code r = 402)) as [E402|N402].
  { right; left. split; [done|].
    destruct (json r) as [v|] eqn:Ej.
    - destruct v; try (rewrite (handle_response_402_not_object _ _ _ E402 Ej) in H by done;
                       discriminate).
      exists (Some d). split; [done|].
      rewrite (handle_response_402 _ _ (Some d)) in H by done. by inversion H.
    - exists None. split; [done|].
      rewrite (handle_response_402 _ _ None) in H by done. by inversion H. }
  right; right. split; [done|]. split; [done|].
  unfold handle_response in H.
  apply Z.eqb_neq in N200, N402. rewrite N200, N402 in H.
  repeat case_match; simplify_eq; try (by eexists).
  all: destruct (try_catch _ _); simpl in H; simplify_eq; by eexists.
Qed.

(** The exceptions that escape [handle_response] are none of those
    the except clauses of [call_api] catch. *)
Lemma handle_response_raises hash r e :
  handle_response py_repr hash r = Raise e →
  is_request_exception e = false.
Proof.
  unfold handle_response, response_json. intros Hr.
  repeat case_match; simpl in Hr; simplify_eq; try done.
  all: repeat match goal with
       | v : pyval |- _ => destruct v; simpl in *; simplify_eq
       end; done.
Qed.

End HandleResponse.

(** ** Discovery, search and lookup *)

Lemma filter_sublist {A} (f : A → bool) (l : list A) : sublist (List.filter f l) l.
Proof.
  induction l as [|x l IH]; simpl; [constructor|].
  destruct (f x); by constructor.
Qed.

Lemma any_tag_texts (q : string) (tags : list pyval) :
  forallb is_text tags = true →
  any_tag q tags = Return (existsb (λ tag, str_contains q (lower tag)) (text_of <$> tags)).
Proof.
  induction tags as [|tag tags IH]; simpl; [done|].
  intros [Htag Htags]%andb_true_iff. destruct tag; try done. simpl.
  destruct (str_contains q (lower s)); simpl; [done|]. by apply IH.
Qed.

Lemma py_lower_text (field : option pyval) :
  text_or_absent field = true →
  py_lower (default (PStr "") field)
  = Return (lower (text_of (default (PStr "") field))).
Proof. by destruct field as [[]|]. Qed.

Lemma py_iter_tags (field : option pyval) :
  tags_or_absent field = true →
  ∃ tags, py_iter (default (PList []) field) = Return tags
          ∧ forallb is_text tags = true
          ∧ match field with Some (PList t) => text_of <$> t | _ => [] end
            = text_of <$> tags.
Proof.
  destruct field as [[]|]; try done; intros H.
  - by exists l.
  - by exists [].
Qed.

(** On a service record the condition of the comprehension never raises
    and is the match the specification describes. *)
Lemma svc_matches_service (query : string) (svc : pyval) :
  is_service svc = true →
  svc_matches (lower query) svc = Return (service_matches query svc).
Proof.
  destruct svc as [| | | | |l|d]; try done. simpl.
  intros [[Hn Hd]%andb_true_iff Ht]%andb_true_iff.
  unfold svc_matches, service_matches, svc_name, svc_description, svc_tags, py_get.
  cbn [mbind result_bind].
  rewrite (py_lower_text _ Hn). cbn [mbind result_bind].
  destruct (str_contains (lower query) (lower (text_of (default (PStr "") (d !! "name")))));
    [done|].
  rewrite (py_lower_text _ Hd). cbn [mbind result_bind orb].
  destruct (str_contains (lower query)
              (lower (text_of (default (PStr "") (d !! "description"))))); [done|].
  destruct (py_iter_tags _ Ht) as (tags & -> & Htags & ->).
  cbn [mbind result_bind orb]. by apply any_tag_texts.
Qed.

Lemma comprehension_services (query : string) (services : list pyval) :
  forallb is_service services = true →
  comprehension (lower query) services
  = Return (List.filter (service_matches query) services).
Proof.
  induction services as [|svc services IH]; simpl; [done|].
  intros [Hsvc Hrest]%andb_true_iff.
  rewrite (svc_matches_service _ _ Hsvc). simpl. rewrite (IH Hrest). simpl.
  by destruct (service_matches query svc).
Qed.

Lemma first_named_services (service_name : string) (services : list pyval) :
  forallb is_service services = true →
  first_named service_name services
  = Return (List.find (service_named service_name) services).
Proof.
  induction services as [|svc services IH]; simpl; [done|].
  intros [Hsvc Hrest]%andb_true_iff.
  destruct svc as [| | | | |l|d]; try done. simpl in Hsvc.
  apply andb_true_iff in Hsvc as [[Hn _]%andb_true_iff _].
  unfold service_named at 1, svc_name, py_get. cbn [mbind result_bind].
  rewrite (py_lower_text _ Hn). cbn [mbind result_bind].
  destruct (String.eqb _ (lower service_name)); [done|by apply IH].
Qed.

Section Discovery.

Variable server : list Request → Request → result Response.

Lemma discover_services_eq self log :
  discover_services server self log
  = (discovered (server log (discovery_request self)), log ++ [discovery_request self]).
Proof.
  unfold discover_services, try_except, discovered, session_get, send, lift,
    discovery_request. simpl. unfold mbind, io_bind, result_bind. simpl.
  destruct (server log _) as [r|e]; simpl.
  - destruct (raise_for_status r) as [[]|e]; simpl.
    + destruct (response_json r) as [v|e]; simpl.
      * destruct (py_len v) as [n|e]; simpl; [done|].
        by destruct (is_request_exception e).
      * by destruct (is_request_exception e).
    + by destruct (is_request_exception e).
  - by destruct (is_request_exception e).
Qed.

(** Discovery makes exactly one request. *)
Lemma discover_services_log self log :
  snd (discover_services server self log) = log ++ [discovery_request self].
Proof. by rewrite discover_services_eq. Qed.

(** [search_services] is its comprehension over what discovery returned. *)
Lemma search_services_eq self query log :
  search_services server self query log
  = (services ← fst (discover_services server self log);
     services ← py_iter services;
     comprehension (lower query) services,
     snd (discover_services server self log)).
Proof.
  unfold search_services, try_except. unfold mbind at 1. unfold io_bind.
  destruct (discover_services server self log) as [[v|e] log']; simpl; [|done].
  unfold mbind, io_bind, lift, mret, io_ret. simpl.
  destruct (py_iter v) as [l|e]; simpl; [|done].
  by destruct (comprehension (lower query) l).
Qed.

(** [get_service_details] is its loop over what discovery returned,
    with every exception turned into [None]. *)
Lemma get_service_details_eq self service_name log :
  get_service_details server self service_name log
  = (match (services ← fst (discover_services server self log);
            services ← py_iter services;
            first_named service_name services) with
     | Return found => Return found
     | Raise _ => Return None
     end,
     snd (discover_services server self log)).
Proof.
  unfold get_service_details, try_except. unfold mbind at 1. unfold io_bind.
  destruct (discover_services server self log) as [[v|e] log']; simpl; [|done].
  unfold mbind, io_bind, lift. simpl.
  destruct (py_iter v) as [l|e]; simpl; [|done].
  by destruct (first_named service_name l).
Qed.

End Discovery.

(** ** The call protocol *)

Section CallProtocol.

Variable server : list Request → Request → result Response.
Variable py_repr : pyval → string.

(** C4: a method that is neither GET nor POST up to case, that is,
    whose upper-casing [method.upper()] is neither "GET" nor "POST",
    gives a failure whose message is "Unsupported HTTP method: "
    followed by the method as given, so the message contains the
    method verbatim; the request log is left as it was, that is,
    neither [session.get] nor [session.post] is called.  The
    upper-casing is Python's, Unicode tables included, so that a
    method which only they turn into "GET" or "POST" is not in the
    scope of this theorem: the program sends its request. *)
Theorem call_api_unsupported_method self endpoint params method hash log :
  upper method ≠ "GET" →
  upper method ≠ "POST" →
  call_api server py_repr self endpoint params method hash log
  = (Return {[ "success" := PBool false;
               "error" := PStr ("Unsupported HTTP method: " +:+ method) ]},
     log)
  ∧ str_contains method ("Unsupported HTTP method: " +:+ method) = true.
Proof.
  intros Hget Hpost. split.
  - by apply call_api_unsupported.
  - apply str_contains_end.
Qed.

(** C5: a 200 response gives a success whose [data] is the parsed body
    when the body parses and [{text: raw}] when it does not, and whose
    [payment_status] is "completed" when a payment proof was passed
    with the call and "free" otherwise, whatever the body. *)
Theorem call_api_ok self endpoint params method verb hash log r :
  upper method = verb_name verb →
  server log (request_for verb self endpoint params hash) = Return r →
  status_code r = 200 →
  call_api server py_repr self endpoint params method hash log
  = (Return {[ "success" := PBool true;
               "data" := match json r with
                         | Some body => body
                         | None => PDict {[ "text" := PStr (text r) ]}
                         end;
               "payment_status" :=
                 PStr (if truthy hash then "completed" else "free") ]},
     log ++ [request_for verb self endpoint params hash]).
Proof.
  intros Hm Hr Hs.
  rewrite (call_api_supported _ _ _ _ _ _ _ _ _ Hm), Hr. simpl.
  rewrite (handle_response_200 _ _ _ Hs). unfold success_outcome.
  by destruct (json r).
Qed.

(** C6: when the request raises a timeout, [call_api] returns a
    failure with message "Request timeout after N seconds", N being
    the timeout of the client; when it raises any other request
    exception, [call_api] returns a failure with message
    "Request error: " followed by the message of the exception.  In
    both cases the call returns and raises nothing. *)
Theorem call_api_transport_failure self endpoint params method verb hash log e :
  upper method = verb_name verb →
  server log (request_for verb self endpoint params hash) = Raise e →
  is_request_exception e = true →
  call_api server py_repr self endpoint params method hash log
  = (Return {[ "success" := PBool false;
               "error" := PStr (if is_timeout e
                                then "Request timeout after " +:+
                                     string_of_Z (timeout self) +:+ " seconds"
                                else "Request error: " +:+ exc_str e) ]},
     log ++ [request_for verb self endpoint params hash]).
Proof.
  intros Hm Hr He.
  rewrite (call_api_supported _ _ _ _ _ _ _ _ _ Hm), Hr. simpl.
  unfold on_exception. rewrite He. by destruct (is_timeout e).
Qed.

End CallProtocol.

(** ** The payment gate *)

Lemma str_app_assoc (a b c : string) : (a +:+ b) +:+ c = a +:+ b +:+ c.
Proof.
  induction a as [|x a IH]; [done|]. by rewrite !app_cons_eq, IH.
Qed.

Lemma unknown_status (code : Z) :
  code ∉ [200; 402; 400; 429; 500] ↔ known_status code = false.
Proof.
  unfold known_status. rewrite !not_elem_of_cons, !orb_false_iff, !Z.eqb_neq.
  pose proof (not_elem_of_nil code). tauto.
Qed.

Lemma method_cases (method : string) :
  (∃ verb, upper method = verb_name verb)
  ∨ (upper method ≠ "GET" ∧ upper method ≠ "POST").
Proof.
  destruct (decide (upper method = "GET")) as [Hg|Hg];
    [left; by exists GET|].
  destruct (decide (upper method = "POST")) as [Hp|Hp];
    [left; by exists POST|].
  by right.
Qed.

(** A method that spells GET or POST in any mix of upper and lower
    case passes the test [method.upper() == "GET"] or
    [method.upper() == "POST"]: such a string is all ASCII, and the
    Unicode tables are not consulted. *)
Lemma spelled_verb (method : string) (verb : http_method) :
  str_map ascii_lower method = str_map ascii_lower (verb_name verb) →
  upper method = verb_name verb.
Proof.
  intros H.
  assert (Ha : is_ascii method = true)
    by (rewrite <- is_ascii_lower, H; by destruct verb).
  rewrite (upper_ascii _ Ha), <- str_upper_lower, H. by destruct verb.
Qed.

Lemma on_exception_returns self e o :
  on_exception self e = Return o →
  is_request_exception e = true ∧ ∃ error, o = failure error.
Proof.
  unfold on_exception, is_timeout, is_request_exception.
  destruct (exc_type e); intros H; simplify_eq; eauto.
Qed.

Section PaymentGate.

Variable py_repr : pyval → string.

Lemma instructions_absent cost k :
  k ∉ synthesized_keys → instructions py_repr cost !! k = None.
Proof.
  unfold synthesized_keys, instructions. rewrite !not_elem_of_cons.
  intros (? & ? & ? & ? & ? & ? & _).
  rewrite !lookup_insert_ne by done. by apply lookup_singleton_ne.
Qed.

Lemma instructions_present cost k :
  k ∈ synthesized_keys → is_Some (instructions py_repr cost !! k).
Proof.
  unfold synthesized_keys, instructions. rewrite !elem_of_cons.
  intros [->|[->|[->|[->|[->|[->|[]%elem_of_nil]]]]]];
    by simplify_map_eq.
Qed.

(** In the merge the client's fields win and the rest of the body is
    kept. *)
Lemma merged_synthesized cost body k :
  k ∈ synthesized_keys →
  (instructions py_repr cost ∪ body) !! k = instructions py_repr cost !! k.
Proof.
  intros [v Hv]%(instructions_present cost).
  rewrite Hv. by apply lookup_union_Some_l.
Qed.

Lemma merged_passthrough cost body k :
  k ∉ synthesized_keys →
  (instructions py_repr cost ∪ body) !! k = body !! k.
Proof.
  intros Hk. by apply lookup_union_r, instructions_absent.
Qed.

Lemma first_instruction_mentions cost :
  let step1 := "1. Send " +:+ py_format py_repr cost +:+ " USDC on " +:+
               upper PAYMENT_CHAIN +:+ " to: " +:+ PAYMENT_ADDRESS in
  str_contains (py_format py_repr cost) step1 = true
  ∧ str_contains (upper PAYMENT_CHAIN) step1 = true
  ∧ str_contains PAYMENT_ADDRESS step1 = true.
Proof.
  intros step1. subst step1. split; [apply str_contains_app|]. split.
  - rewrite <- (str_app_assoc (py_format py_repr cost)), <- str_app_assoc.
    apply str_contains_app.
  - rewrite <- (str_app_assoc (upper PAYMENT_CHAIN)),
      <- (str_app_assoc " USDC on "),
      <- (str_app_assoc (py_format py_repr cost)), <- str_app_assoc.
    apply str_contains_end.
Qed.

End PaymentGate.

(** A key written out is found in [synthesized_keys] by walking the list. *)
Ltac synthesized_key :=
  unfold synthesized_keys;
  repeat first [apply list_elem_of_here | apply list_elem_of_further].

Section PaymentRequired.

Variable server : list Request → Request → result Response.
Variable py_repr : pyval → string.

Lemma call_api_402 self endpoint params method verb hash log r parsed :
  upper method = verb_name verb →
  server log (request_for verb self endpoint params hash) = Return r →
  status_code r = 402 →
  json r = PDict <$> parsed →
  call_api server py_repr self endpoint params method hash log
  = (Return (payment_required_outcome py_repr (payment_body parsed)),
     log ++ [request_for verb self endpoint params hash]).
Proof.
  intros Hm Hr Hs Hj.
  rewrite (call_api_supported _ _ _ _ _ _ _ _ _ Hm), Hr. simpl.
  by rewrite (handle_response_402 _ _ _ _ Hs Hj).
Qed.

(** X22: for a 402 response whose body is not JSON or parses
    to a JSON object, the [payment_details] of the outcome is the
    merge of the body (the fallback payload when the body is not
    JSON) with the six fields the client writes, the client's fields
    winning on every shared key: [payment_address] and
    [payment_chain] are the client's constants whatever the body
    holds, and every key of the body outside the six is kept with
    its value. *)
Theorem call_api_payment_details self endpoint params method verb hash log r parsed :
  upper method = verb_name verb →
  server log (request_for verb self endpoint params hash) = Return r →
  status_code r = 402 →
  json r = PDict <$> parsed →
  ∃ cost details,
    call_api server py_repr self endpoint params method hash log
    = (Return {[ "success" := PBool false;
                 "payment_required" := PBool true;
                 "payment_details" := PDict details;
                 "cost_usdc" := cost ]},
       log ++ [request_for verb self endpoint params hash])
    ∧ details = instructions py_repr cost ∪ payment_body parsed
    ∧ (∀ k, k ∈ synthesized_keys ↔ is_Some (instructions py_repr cost !! k))
    ∧ details !! "payment_address" = Some (PStr PAYMENT_ADDRESS)
    ∧ details !! "payment_chain" = Some (PStr PAYMENT_CHAIN)
    ∧ (∀ k, k ∈ synthesized_keys → details !! k = instructions py_repr cost !! k)
    ∧ (∀ k, k ∉ synthesized_keys → details !! k = payment_body parsed !! k).
Proof.
  intros Hm Hr Hs Hj.
  exists (resolve_cost (payment_body parsed)),
    (instructions py_repr (resolve_cost (payment_body parsed)) ∪ payment_body parsed).
  split; [by eapply call_api_402|]. split; [done|]. split.
  { intros k. split; [apply instructions_present|].
    intros [v Hv]. destruct (decide (k ∈ synthesized_keys)) as [|Hk]; [done|].
    by rewrite (instructions_absent _ _ _ Hk) in Hv. }
  split; [|split; [|split]].
  - rewrite merged_synthesized; [done | synthesized_key].
  - rewrite merged_synthesized; [done | synthesized_key].
  - intros k. apply merged_synthesized.
  - intros k. apply merged_passthrough.
Qed.

(** X23: for a 402 response whose body parses to a JSON
    object, the cost reported both as [cost_usdc] and as
    [payment_details["payment_amount"]] is the value under [amount]
    when the object has that key, else the value under
    [required_payment] when it has that one, else the text "unknown";
    for a body that is not JSON the cost is "unknown". *)
Theorem call_api_cost self endpoint params method verb hash log r parsed :
  upper method = verb_name verb →
  server log (request_for verb self endpoint params hash) = Return r →
  status_code r = 402 →
  json r = PDict <$> parsed →
  ∃ o details,
    call_api server py_repr self endpoint params method hash log
    = (Return o, log ++ [request_for verb self endpoint params hash])
    ∧ o !! "payment_details" = Some (PDict details)
    ∧ o !! "cost_usdc" = Some (resolve_cost (payment_body parsed))
    ∧ details !! "payment_amount" = Some (resolve_cost (payment_body parsed))
    ∧ (∀ body, parsed = Some body →
         resolve_cost (payment_body parsed)
         = match body !! "amount" with
           | Some amount => amount
           | None => default (PStr "unknown") (body !! "required_payment")
           end)
    ∧ (parsed = None → resolve_cost (payment_body parsed) = PStr "unknown").
Proof.
  intros Hm Hr Hs Hj.
  eexists _, _. split; [by eapply call_api_402|].
  unfold payment_required_outcome.
  split; [by simplify_map_eq|]. split; [by simplify_map_eq|]. split.
  { rewrite merged_synthesized by synthesized_key.
    unfold instructions. by simplify_map_eq. }
  split.
  - intros body ->. unfold resolve_cost, payment_body. simpl.
    by destruct (body !! "amount"), (body !! "required_payment").
  - by intros ->.
Qed.

(** X24: for a status outside 200, 402, 400, 429 and 500 the
    outcome is a failure whose message is, when the body parses to a
    JSON object, its [error] field if it has one and "HTTP <code>"
    otherwise, and, when the body is not JSON, "HTTP <code>: "
    followed by the first 200 characters of the raw text.  The cut is
    made on the raw text alone: what follows the prefix is the raw
    text when it has at most 200 characters and its first 200
    otherwise. *)
Theorem call_api_other_status self endpoint params method verb hash log r :
  upper method = verb_name verb →
  server log (request_for verb self endpoint params hash) = Return r →
  status_code r ∉ [200; 402; 400; 429; 500] →
  (∀ body, json r = Some (PDict body) →
     call_api server py_repr self endpoint params method hash log
     = (Return {[ "success" := PBool false;
                  "error" := default (PStr ("HTTP " +:+ string_of_Z (status_code r)))
                                     (body !! "error") ]},
        log ++ [request_for verb self endpoint params hash]))
  ∧ (json r = None →
     call_api server py_repr self endpoint params method hash log
     = (Return {[ "success" := PBool false;
                  "error" := PStr ("HTTP " +:+ string_of_Z (status_code r) +:+ ": "
                                   +:+ str_take 200 (text r)) ]},
        log ++ [request_for verb self endpoint params hash]))
  ∧ String.length (str_take 200 (text r)) = min 200 (String.length (text r))
  ∧ ∃ rest, text r = str_take 200 (text r) +:+ rest.
Proof.
  intros Hm Hr Hs%unknown_status.
  split; [|split; [|split]].
  - intros body Hj.
    rewrite (call_api_supported _ _ _ _ _ _ _ _ _ Hm), Hr. simpl.
    by rewrite (handle_response_other _ _ _ Hs), Hj.
  - intros Hj.
    rewrite (call_api_supported _ _ _ _ _ _ _ _ _ Hm), Hr. simpl.
    by rewrite (handle_response_other _ _ _ Hs), Hj.
  - apply str_take_length.
  - apply str_take_prefix.
Qed.

(** C3: an outcome returned by [call_api] is never a success and a
    payment request at once: [success] is true only when the
    response had status 200, and [payment_required] is true only
    along with [success] false.  Whenever a payment request is
    returned, which happens on a 402 response only, be its body
    parsed or not, its [payment_details["instructions"]] is a list of
    exactly three strings, the first of which contains the cost as
    rendered, the chain name in upper case and the payment address.
    The method of a call that made a request is one that
    [method.upper()] turns into "GET" or "POST". *)
Theorem call_api_outcome_invariant self endpoint params method hash log o log' :
  call_api server py_repr self endpoint params method hash log = (Return o, log') →
  ¬ (is_success o ∧ is_payment_required o)
  ∧ (is_success o →
     ∃ verb r, upper method = verb_name verb
       ∧ server log (request_for verb self endpoint params hash) = Return r
       ∧ status_code r = 200)
  ∧ (is_payment_required o →
     o !! "success" = Some (PBool false)
     ∧ (∃ verb r parsed, upper method = verb_name verb
          ∧ server log (request_for verb self endpoint params hash) = Return r
          ∧ status_code r = 402
          ∧ json r = PDict <$> parsed)
     ∧ ∃ cost details step1,
         o !! "cost_usdc" = Some cost
         ∧ o !! "payment_details" = Some (PDict details)
         ∧ details !! "instructions"
           = Some (PList [PStr step1;
                          PStr "2. Wait for transaction confirmation";
                          PStr "3. Call this endpoint again with transaction hash"])
         ∧ str_contains (py_format py_repr cost) step1 = true
         ∧ str_contains (upper PAYMENT_CHAIN) step1 = true
         ∧ str_contains PAYMENT_ADDRESS step1 = true).
Proof.
  intros Hcall.
  assert (Hfail : ∀ error, o = failure error →
            ¬ is_success o ∧ ¬ is_payment_required o).
  { intros error ->. unfold is_success, is_payment_required, failure.
    split; by simplify_map_eq. }
  destruct (method_cases method) as [[verb Hm]|[Hget Hpost]].
  2: { rewrite call_api_unsupported in Hcall by done. simplify_eq.
       destruct (Hfail _ eq_refl) as [Hnot_success Hnot_payment].
       split; [by intros [? _]|]. by split. }
  rewrite (call_api_supported _ _ _ _ _ _ _ _ _ Hm) in Hcall.
  destruct (server log _) as [r|e] eqn:Hr; simpl in Hcall.
  2: { apply (f_equal fst) in Hcall. simpl in Hcall.
       apply on_exception_returns in Hcall as [_ [error ->]].
       destruct (Hfail _ eq_refl) as [Hnot_success Hnot_payment].
       split; [by intros [? _]|]. by split. }
  apply (f_equal fst) in Hcall. simpl in Hcall.
  destruct (handle_response py_repr hash r) as [o'|e] eqn:Hh.
  2: { apply handle_response_raises in Hh.
       apply on_exception_returns in Hcall as [? _]. congruence. }
  injection Hcall as ->.
  apply handle_response_returns in Hh
    as [[Hs ->]|[[Hs (parsed & Hj & ->)]|(_ & _ & error & ->)]].
  - unfold is_success, is_payment_required, success_outcome.
    split; [intros [_ ?]; by simplify_map_eq|]. split; [by eauto|].
    intros ?; by simplify_map_eq.
  - clear Hfail. unfold is_success, is_payment_required, payment_required_outcome.
    split; [intros [? _]; by simplify_map_eq|].
    split; [intros ?; by simplify_map_eq|]. intros _.
    split; [by simplify_map_eq|]. split; [by eauto 10|].
    eexists _, _, _. split; [by simplify_map_eq|]. split; [by simplify_map_eq|].
    split.
    { rewrite merged_synthesized by synthesized_key.
      unfold instructions. by simplify_map_eq. }
    apply first_instruction_mentions.
  - destruct (Hfail _ eq_refl) as [Hnot_success Hnot_payment].
    split; [by intros [? _]|]. by split.
Qed.

End PaymentRequired.

(** ** Search and lookup over the discovered services *)

Lemma filter_all {A} (f : A → bool) (l : list A) :
  (∀ x, x ∈ l → f x = true) → List.filter f l = l.
Proof.
  induction l as [|x l IH]; simpl; [done|]. intros H.
  rewrite (H x) by left. f_equal. apply IH. intros y Hy. apply H. by right.
Qed.

Lemma find_agree {A} (f g : A → bool) (l : list A) :
  (∀ x, f x = g x) → List.find f l = List.find g l.
Proof.
  intros H. induction l as [|x l IH]; simpl; [done|]. by rewrite H, IH.
Qed.

Lemma empty_query_matches (svc : pyval) : service_matches "" svc = true.
Proof. unfold service_matches. simpl. by rewrite str_contains_empty. Qed.

Section SearchAndLookup.

Variable server : list Request → Request → result Response.

(** C8: over a discovered list of services, [search_services] with
    the empty query returns the whole list in its order; for every
    query it returns the services that match, in discovery order (the
    filter of the discovered list, hence a sublist of it); and two
    searches that see the same discovery result return the same
    list. *)
Theorem search_services_stable_filter self log services :
  fst (discover_services server self log) = Return (PList services) →
  forallb is_service services = true →
  search_services server self "" log
  = (Return services, log ++ [discovery_request self])
  ∧ (∀ query,
       search_services server self query log
       = (Return (List.filter (service_matches query) services),
          log ++ [discovery_request self])
       ∧ sublist (List.filter (service_matches query) services) services)
  ∧ (∀ query log2,
       fst (discover_services server self log2)
       = fst (discover_services server self log) →
       fst (search_services server self query log2)
       = fst (search_services server self query log)).
Proof.
  intros Hd Hs.
  assert (Hq : ∀ query, search_services server self query log
               = (Return (List.filter (service_matches query) services),
                  log ++ [discovery_request self])).
  { intros query. rewrite search_services_eq, Hd. simpl.
    by rewrite (comprehension_services _ _ Hs), discover_services_log. }
  split; [|split].
  - rewrite Hq. f_equal. f_equal. apply filter_all.
    intros svc _. apply empty_query_matches.
  - intros query. split; [apply Hq | apply filter_sublist].
  - intros query log2 Hsame. rewrite !search_services_eq. simpl. by rewrite Hsame.
Qed.

(** C9: [get_service_details] always returns and never raises; over a
    discovered list of services it returns the first one, in
    discovery order, whose name is the wanted name up to case, and
    [None] when there is none; when discovery raises, whatever the
    exception, it returns [None].  Two names are equal up to case
    when [str.lower] gives the same string on both, accented and other
    letters outside ASCII included. *)
Theorem get_service_details_first_match self service_name log :
  ∃ found,
    get_service_details server self service_name log
    = (Return found, log ++ [discovery_request self])
    ∧ (∀ services,
         fst (discover_services server self log) = Return (PList services) →
         forallb is_service services = true →
         found = List.find (λ svc, bool_decide (eq_nocase (svc_name svc) service_name))
                           services)
    ∧ (∀ e, fst (discover_services server self log) = Raise e → found = None).
Proof.
  rewrite get_service_details_eq, discover_services_log.
  destruct (fst (discover_services server self log)) as [v|e] eqn:Hd; simpl.
  - destruct (py_iter v ≫= first_named service_name) as [found|e] eqn:Hf.
    + exists found. split; [done|]. split; [|done].
      intros services [= ->] Hs. simpl in Hf.
      rewrite (first_named_services _ _ Hs) in Hf. injection Hf as <-.
      apply find_agree. intros svc. unfold service_named, eq_nocase.
      destruct (String.eqb_spec (lower (svc_name svc)) (lower service_name));
        [by rewrite bool_decide_eq_true_2 | by rewrite bool_decide_eq_false_2].
    + exists None. split; [done|]. split; [|done].
      intros services [= ->] Hs. simpl in Hf.
      by rewrite (first_named_services _ _ Hs) in Hf.
  - exists None. by split.
Qed.

End SearchAndLookup.

(** ** Records with missing fields

    The Unicode tables map every character to at least one character,
    so that lower-casing a string that is not empty never gives the
    empty string.  This is the one fact about [unicode_lower] that is
    used, and it is used here only. *)

Section MissingFields.

Hypothesis unicode_lower_nonempty : ∀ s, unicode_lower s = "" → s = "".

(** Lower-casing gives the empty string for the empty string only. *)
Lemma lower_empty_iff (s : string) : lower s = "" ↔ s = "".
Proof.
  split; [|by intros ->]. unfold lower.
  destruct (is_ascii s); [by destruct s | apply unicode_lower_nonempty].
Qed.

(** C10, amended: on a service record, a field that is missing among
    [name], [description] and [tags] never makes the condition of
    [search_services] or the comparison of [get_service_details]
    raise: the condition is the one of the record with an empty name,
    an empty description or an empty tag list put in, so the record is
    matched by the empty query; and in [get_service_details] a record
    with no [name] is compared as if named by the empty string, so it
    is passed over for every wanted name that is not empty and is the
    match for the empty one. *)
Theorem missing_fields_are_defaults (d : gmap string pyval)
    (query service_name : string) (rest : list pyval) :
  is_service (PDict d) = true →
  (∃ keep, svc_matches (lower query) (PDict d) = Return keep)
  ∧ svc_matches (lower "") (PDict d) = Return true
  ∧ (d !! "name" = None →
     svc_matches (lower query) (PDict d)
     = svc_matches (lower query) (PDict (<["name" := PStr ""]> d)))
  ∧ (d !! "description" = None →
     svc_matches (lower query) (PDict d)
     = svc_matches (lower query) (PDict (<["description" := PStr ""]> d)))
  ∧ (d !! "tags" = None →
     svc_matches (lower query) (PDict d)
     = svc_matches (lower query) (PDict (<["tags" := PList []]> d)))
  ∧ (d !! "name" = None →
     first_named service_name (PDict d :: rest)
     = if String.eqb "" (lower service_name) then Return (Some (PDict d))
       else first_named service_name rest)
  ∧ (d !! "name" = None → service_name ≠ "" →
     first_named service_name (PDict d :: rest) = first_named service_name rest).
Proof.
  intros Hs.
  assert (Hname : d !! "name" = None →
            first_named service_name (PDict d :: rest)
            = if String.eqb "" (lower service_name) then Return (Some (PDict d))
              else first_named service_name rest).
  { intros Hn. simpl. by rewrite Hn. }
  split; [by rewrite svc_matches_service; eauto|].
  split; [by rewrite svc_matches_service, empty_query_matches|].
  split; [|split; [|split; [|split]]].
  - intros Hn. unfold svc_matches, py_get.
    rewrite lookup_insert_eq, !lookup_insert_ne, Hn by done. done.
  - intros Hn. unfold svc_matches, py_get.
    rewrite lookup_insert_eq, !lookup_insert_ne, Hn by done. done.
  - intros Hn. unfold svc_matches, py_get.
    rewrite lookup_insert_eq, !lookup_insert_ne, Hn by done. done.
  - exact Hname.
  - intros Hn Hne. rewrite (Hname Hn).
    destruct (String.eqb_spec "" (lower service_name)) as [E|]; [|done].
    destruct Hne. by apply lower_empty_iff.
Qed.

End MissingFields.

(** * Further properties of the client *)

(** ** The fetchers: discovery, marketplace information, statistics *)

Lemma raise_for_status_ok (r : Response) :
  ¬ error_status (status_code r) → raise_for_status r = Return ().
Proof.
  unfold error_status, raise_for_status. intros H.
  destruct (400 <=? status_code r) eqn:E1; [|done].
  destruct (status_code r <? 600) eqn:E2; [|done].
  apply Z.leb_le in E1. apply Z.ltb_lt in E2. lia.
Qed.

Lemma raise_for_status_error (r : Response) :
  error_status (status_code r) →
  raise_for_status r = Raise (Exc HTTPError (string_of_Z (status_code r))).
Proof.
  unfold error_status, raise_for_status. intros [H1 H2].
  apply Z.leb_le in H1. apply Z.ltb_lt in H2. by rewrite H1, H2.
Qed.

Lemma raise_for_status_cases (r : Response) :
  (¬ error_status (status_code r) ∧ raise_for_status r = Return ())
  ∨ (error_status (status_code r)
     ∧ raise_for_status r = Raise (Exc HTTPError (string_of_Z (status_code r)))).
Proof.
  destruct (decide (400 ≤ status_code r < 600)) as [H|H].
  - right. split; [done|]. by apply raise_for_status_error.
  - left. split; [done|]. by apply raise_for_status_ok.
Qed.

Section Fetchers.

Variable server : list Request → Request → result Response.

Lemma get_public_stats_eq self log :
  get_public_stats server self log
  = (response ← server log (stats_request self);
     _ ← raise_for_status response;
     response_json response,
     log ++ [stats_request self]).
Proof.
  unfold get_public_stats, try_except, session_get, send, lift, stats_request.
  simpl. unfold mbind, io_bind, result_bind. simpl.
  destruct (server log _) as [r|e]; simpl.
  - destruct (raise_for_status r) as [[]|e]; simpl.
    + destruct (response_json r) as [v|e]; simpl; [done|].
      by destruct (is_request_exception e).
    + by destruct (is_request_exception e).
  - by destruct (is_request_exception e).
Qed.

Lemma get_marketplace_info_eq self log :
  get_marketplace_info server self log
  = (response ← server log (root_request self);
     _ ← raise_for_status response;
     Return (default (PDict {[ "name" := PStr "x402 Bazaar";
                               "status" := PStr "online";
                               "html" := PStr (str_take 500 (text response)) ]})
                     (json response)),
     log ++ [root_request self]).
Proof.
  unfold get_marketplace_info, try_except, session_get, send, lift, root_request.
  simpl. unfold mbind, io_bind, result_bind. simpl.
  destruct (server log _) as [r|e]; simpl.
  - destruct (raise_for_status r) as [[]|e]; simpl.
    + unfold response_json. by destruct (json r).
    + by destruct (is_request_exception e).
  - by destruct (is_request_exception e).
Qed.

Lemma test_connection_eq self log :
  test_connection server self log
  = (Return (match server log (root_request self) with
             | Return response => bool_decide (status_code response ∈ [200; 402; 400])
             | Raise _ => false
             end),
     log ++ [root_request self]).
Proof.
  unfold test_connection, try_except, session_get, send, root_request.
  simpl. unfold mbind, io_bind. simpl.
  by destruct (server log _) as [r|e].
Qed.

(** X1: [test_connection] never raises and makes exactly one request,
    a plain GET of the root path; it answers [True] exactly when the
    server answered that request with status 200, 402 or 400, and
    [False] on every other status and on every exception of the
    session. *)
Theorem test_connection_live self log :
  ∃ live,
    test_connection server self log = (Return live, log ++ [root_request self])
    ∧ (live = true ↔
       ∃ response, server log (root_request self) = Return response
                   ∧ status_code response ∈ [200; 402; 400]).
Proof.
  rewrite test_connection_eq. eexists. split; [done|].
  destruct (server log _) as [r|e].
  - rewrite bool_decide_eq_true. split; [by eauto|]. by intros (? & [= <-] & ?).
  - split; [done|]. by intros (? & ? & _).
Qed.

(** X2: [discover_services] returns a value exactly when the server
    answered its one request with a status outside 400..599 and a body
    that parses to a list, a string or an object; the value is that
    parsed body, unchanged.  A body that parses to [null], a number or
    a boolean makes it raise, as does a body that is not JSON. *)
Theorem discover_services_returns self log v :
  fst (discover_services server self log) = Return v
  ↔ ∃ response, server log (discovery_request self) = Return response
                ∧ ¬ error_status (status_code response)
                ∧ json response = Some v
                ∧ has_len v = true.
Proof.
  rewrite discover_services_eq. simpl. unfold discovered. split.
  - destruct (server log _) as [r|e]; simpl; [|done].
    destruct (raise_for_status_cases r) as [[Hs ->]|[Hs ->]]; simpl; [|done].
    unfold response_json. destruct (json r) as [w|] eqn:Hj; simpl; [|done].
    destruct w; simpl; intros [= <-]; by exists r.
  - intros (r & -> & Hs & Hj & Hl). simpl.
    rewrite (raise_for_status_ok _ Hs). simpl.
    unfold response_json. rewrite Hj. simpl. by destruct v.
Qed.

(** X3: [get_public_stats] returns a value exactly when the server
    answered with a status outside 400..599 and a body that parses;
    the value is the parsed body, whatever JSON value it is.  There
    is no fallback: a body that is not JSON makes it raise
    [JSONDecodeError]. *)
Theorem get_public_stats_returns self log :
  (∀ v, fst (get_public_stats server self log) = Return v
        ↔ ∃ response, server log (stats_request self) = Return response
                      ∧ ¬ error_status (status_code response)
                      ∧ json response = Some v)
  ∧ (∀ response, server log (stats_request self) = Return response →
       ¬ error_status (status_code response) →
       json response = None →
       ∃ e, fst (get_public_stats server self log) = Raise e
            ∧ exc_type e = JSONDecodeError).
Proof.
  rewrite get_public_stats_eq. simpl. split.
  - intros v. split.
    + destruct (server log _) as [r|e]; simpl; [|done].
      destruct (raise_for_status_cases r) as [[Hs ->]|[Hs ->]]; simpl; [|done].
      unfold response_json. destruct (json r) as [w|] eqn:Hj; simpl; [|done].
      intros [= <-]; by exists r.
    + intros (r & -> & Hs & Hj). simpl.
      rewrite (raise_for_status_ok _ Hs). simpl.
      unfold response_json. by rewrite Hj.
  - intros r -> Hs Hj. simpl. rewrite (raise_for_status_ok _ Hs). simpl.
    unfold response_json. rewrite Hj. by eexists.
Qed.

(** X4: when the server answers the root path with a status outside
    400..599, [get_marketplace_info] always returns: the parsed body
    when the body parses, and otherwise the stand-in record with name
    "x402 Bazaar", status "online" and, under [html], the first 500
    characters of the raw body (the whole body when it is shorter). *)
Theorem get_marketplace_info_fallback self log response :
  server log (root_request self) = Return response →
  ¬ error_status (status_code response) →
  get_marketplace_info server self log
  = (Return match json response with
            | Some info => info
            | None => PDict {[ "name" := PStr "x402 Bazaar";
                               "status" := PStr "online";
                               "html" := PStr (str_take 500 (text response)) ]}
            end,
     log ++ [root_request self])
  ∧ String.length (str_take 500 (text response))
    = min 500 (String.length (text response))
  ∧ ∃ rest, text response = str_take 500 (text response) +:+ rest.
Proof.
  intros Hr Hs.
  split; [|split; [apply str_take_length | apply str_take_prefix]].
  rewrite get_marketplace_info_eq, Hr. cbn [mbind result_bind].
  rewrite (raise_for_status_ok _ Hs). cbn [mbind result_bind].
  by destruct (json response).
Qed.

(** X5: the three fetchers do not turn failures into values.  On a
    response with a status in 400..599 each of [discover_services],
    [get_marketplace_info] and [get_public_stats] raises [HTTPError],
    whatever the body holds; and an exception raised by the session
    itself comes out of each of them unchanged. *)
Theorem fetchers_propagate self log :
  (∀ response, server log (discovery_request self) = Return response →
     error_status (status_code response) →
     ∃ e, fst (discover_services server self log) = Raise e ∧ exc_type e = HTTPError)
  ∧ (∀ response, server log (root_request self) = Return response →
     error_status (status_code response) →
     ∃ e, fst (get_marketplace_info server self log) = Raise e ∧ exc_type e = HTTPError)
  ∧ (∀ response, server log (stats_request self) = Return response →
     error_status (status_code response) →
     ∃ e, fst (get_public_stats server self log) = Raise e ∧ exc_type e = HTTPError)
  ∧ (∀ e, server log (discovery_request self) = Raise e →
     fst (discover_services server self log) = Raise e)
  ∧ (∀ e, server log (root_request self) = Raise e →
     fst (get_marketplace_info server self log) = Raise e)
  ∧ (∀ e, server log (stats_request self) = Raise e →
     fst (get_public_stats server self log) = Raise e).
Proof.
  rewrite discover_services_eq, get_marketplace_info_eq, get_public_stats_eq.
  unfold discovered. simpl.
  repeat split.
  1-3: intros r -> Hs; simpl; rewrite (raise_for_status_error _ Hs); by eexists.
  all: by intros e ->.
Qed.

End Fetchers.

(** ** More on [call_api] *)

Lemma on_exception_raises self e e' :
  on_exception self e = Raise e' ↔ e' = e ∧ is_request_exception e = false.
Proof.
  unfold on_exception, is_timeout, is_request_exception.
  destruct (exc_type e); split; (try by intros [= ->]); by intros [-> ?].
Qed.

Section CallApiMore.

Variable server : list Request → Request → result Response.
Variable py_repr : pyval → string.

Lemma handle_response_fixed hash r :
  status_code r = 429 ∨ status_code r = 500 →
  handle_response py_repr hash r
  = Return (failure (PStr (if status_code r =? 429
                           then "Rate limit exceeded. Please try again later."
                           else "Server error. Please try again later."))).
Proof.
  unfold handle_response. by intros [-> | ->].
Qed.

Lemma handle_response_400 hash r :
  status_code r = 400 →
  handle_response py_repr hash r
  = match json r with
    | Some error_data =>
        error_msg ← py_get error_data "error" (PStr "Bad request");
        Return (failure error_msg)
    | None => Return (failure (PStr (text r)))
    end.
Proof.
  unfold handle_response, response_json. intros ->. simpl.
  destruct (json r) as [v|]; simpl; [|done].
  destruct (py_get v _ _) eqn:E; simpl; [done|].
  destruct v; simpl in E; by inversion E.
Qed.

Lemma object_or_not (v : pyval) : (∃ d, v = PDict d) ∨ (∀ d, v ≠ PDict d).
Proof. destruct v; try (by right); left; by eexists. Qed.

Lemma get_error_raises (v dflt : pyval) (e : pyexc) :
  (error_msg ← py_get v "error" dflt; Return (failure error_msg)) = Raise e
  ↔ (∀ d, v ≠ PDict d) ∧ e = attribute_error "get".
Proof.
  destruct v; simpl; split; try (by intros [= <-]); try (by intros [_ ->]).
  intros [H _]. by destruct (H d).
Qed.

(** The one way [handle_response] raises: a body that is JSON but no
    object, on a status whose branch looks a key up in it. *)
Lemma handle_response_raises_iff hash r e :
  handle_response py_repr hash r = Raise e
  ↔ (status_code r ∉ [200; 429; 500])
    ∧ ∃ v, json r = Some v ∧ (∀ d, v ≠ PDict d) ∧ e = attribute_error "get".
Proof.
  destruct (decide (status_code r = 200)) as [E|N200].
  { rewrite handle_response_200 by done. rewrite E.
    split; [done|]. intros [H _]. destruct H. by left. }
  destruct (decide (status_code r = 429)) as [E|N429].
  { rewrite handle_response_fixed by auto. rewrite E.
    split; [done|]. intros [H _]. destruct H. right. by left. }
  destruct (decide (status_code r = 500)) as [E|N500].
  { rewrite handle_response_fixed by auto. rewrite E.
    split; [done|]. intros [H _]. destruct H. right. right. by left. }
  assert (Hout : status_code r ∉ [200; 429; 500]).
  { rewrite !not_elem_of_cons. repeat split; try done. apply not_elem_of_nil. }
  assert (Hkey : ∀ dflt fallback,
            match json r with
            | Some error_data =>
                error_msg ← py_get error_data "error" dflt; Return (failure error_msg)
            | None => Return (failure fallback)
            end = Raise e
            ↔ (status_code r ∉ [200; 429; 500])
              ∧ ∃ v, json r = Some v ∧ (∀ d, v ≠ PDict d) ∧ e = attribute_error "get").
  { intros dflt fallback. destruct (json r) as [v|].
    - rewrite get_error_raises. split.
      + intros [Hv ->]. split; [done|]. by exists v.
      + by intros (_ & w & [= <-] & Hv & ->).
    - split; [done|]. by intros (_ & ? & ? & _). }
  destruct (decide (status_code r = 402)) as [E402|N402].
  { destruct (json r) as [v|] eqn:Hj.
    - destruct (object_or_not v) as [[d ->]|Hv].
      + rewrite (handle_response_402 _ _ _ (Some d)) by done.
        split; [done|]. intros (_ & w & [= <-] & Hw & _). by destruct (Hw d).
      + rewrite (handle_response_402_not_object _ _ _ _ E402 Hj Hv).
        split; [intros [= <-]; split; [done|by exists v]
               |by intros (_ & _ & _ & _ & ->)].
    - rewrite (handle_response_402 _ _ _ None) by done.
      split; [done|]. by intros (_ & ? & ? & _). }
  destruct (decide (status_code r = 400)) as [E400|N400].
  { rewrite handle_response_400 by done. apply Hkey. }
  rewrite handle_response_other; [apply Hkey|].
  apply unknown_status. rewrite !not_elem_of_cons.
  repeat split; try done. apply not_elem_of_nil.
Qed.

(** X6: two ways in which [call_api], called with GET or POST, raises
    instead of returning an outcome.  An exception of the session that
    is no [requests.RequestException] comes out unchanged.  And when
    the server answers, with a status other than 200, 429 and 500, a
    body that is JSON but not a JSON object, the call raises
    [AttributeError]. *)
Theorem call_api_raises self endpoint params method verb hash log :
  upper method = verb_name verb →
  (∀ e, server log (request_for verb self endpoint params hash) = Raise e →
        is_request_exception e = false →
        fst (call_api server py_repr self endpoint params method hash log) = Raise e)
  ∧ (∀ response v,
       server log (request_for verb self endpoint params hash) = Return response →
       status_code response ∉ [200; 429; 500] →
       json response = Some v →
       (∀ d, v ≠ PDict d) →
       ∃ e, fst (call_api server py_repr self endpoint params method hash log) = Raise e
            ∧ exc_type e = AttributeError).
Proof.
  intros Hm. rewrite (call_api_supported _ _ _ _ _ _ _ _ _ Hm). simpl. split.
  - intros e -> He. simpl. apply on_exception_raises. by split.
  - intros r v -> Hs Hj Hv. simpl.
    assert (handle_response py_repr hash r = Raise (attribute_error "get")) as ->
      by (apply handle_response_raises_iff; split; [done|by exists v]).
    exists (attribute_error "get"). split; [|done].
    by apply on_exception_raises.
Qed.

End CallApiMore.

Section CallApiRequests.

Variable server : list Request → Request → result Response.
Variable py_repr : pyval → string.

(** X7: with GET or POST, in any letter case, [call_api] makes exactly
    one request whatever the server answers and whether the call
    returns or raises: there is no retry.  The request goes to the
    base URL followed by the endpoint, with the timeout of the client;
    [params] is the query of a GET and the JSON body of a POST; and it
    carries the headers X-Payment-TxHash (the proof) and
    X-Payment-Chain (the chain of the client) when a proof that is not
    empty is passed, and no header of its own otherwise. *)
Theorem call_api_single_request self endpoint params method verb hash log :
  upper method = verb_name verb →
  ∃ rq,
    snd (call_api server py_repr self endpoint params method hash log) = log ++ [rq]
    ∧ rq_method rq = verb
    ∧ rq_url rq = base_url self +:+ endpoint
    ∧ rq_timeout rq = timeout self
    ∧ rq_params rq = match verb with GET => params | POST => None end
    ∧ rq_json rq = match verb with GET => None | POST => params end
    ∧ (∀ proof, hash = Some proof → proof ≠ "" →
         rq_headers rq = {[ "X-Payment-TxHash" := proof;
                            "X-Payment-Chain" := PAYMENT_CHAIN ]})
    ∧ (hash = None ∨ hash = Some "" → rq_headers rq = ∅).
Proof.
  intros Hm. exists (request_for verb self endpoint params hash).
  rewrite (call_api_supported _ _ _ _ _ _ _ _ _ Hm). simpl.
  repeat split.
  - intros proof -> Hne. unfold payment_headers. simpl.
    apply String.eqb_neq in Hne. by rewrite Hne.
  - by intros [-> | ->].
Qed.

(** X8: on status 429 and on status 500 [call_api] returns the fixed
    failure message of that status without looking at the body at all:
    the body may be missing, not JSON, or JSON of any kind. *)
Theorem call_api_fixed_failures self endpoint params method verb hash log response :
  upper method = verb_name verb →
  server log (request_for verb self endpoint params hash) = Return response →
  status_code response = 429 ∨ status_code response = 500 →
  call_api server py_repr self endpoint params method hash log
  = (Return {[ "success" := PBool false;
               "error" := PStr (if status_code response =? 429
                                then "Rate limit exceeded. Please try again later."
                                else "Server error. Please try again later.") ]},
     log ++ [request_for verb self endpoint params hash]).
Proof.
  intros Hm Hr Hs.
  rewrite (call_api_supported _ _ _ _ _ _ _ _ _ Hm), Hr. simpl.
  by rewrite (handle_response_fixed _ _ _ Hs).
Qed.

(** X9: on status 400 [call_api] returns a failure whose error is the
    [error] field of the body when the body is a JSON object with that
    field, "Bad request" when it is an object without it, and the raw
    text of the body, whole and not shortened, when the body is not
    JSON. *)
Theorem call_api_bad_request self endpoint params method verb hash log response :
  upper method = verb_name verb →
  server log (request_for verb self endpoint params hash) = Return response →
  status_code response = 400 →
  (∀ body, json response = Some (PDict body) →
     call_api server py_repr self endpoint params method hash log
     = (Return {[ "success" := PBool false;
                  "error" := default (PStr "Bad request") (body !! "error") ]},
        log ++ [request_for verb self endpoint params hash]))
  ∧ (json response = None →
     call_api server py_repr self endpoint params method hash log
     = (Return {[ "success" := PBool false; "error" := PStr (text response) ]},
        log ++ [request_for verb self endpoint params hash])).
Proof.
  intros Hm Hr Hs.
  rewrite (call_api_supported _ _ _ _ _ _ _ _ _ Hm), Hr. simpl.
  rewrite (handle_response_400 _ _ _ Hs).
  split; [intros body ->|intros ->]; done.
Qed.

(** X10: the payment round trip.  When the server answers the call made
    without proof with a 402 whose body parses to the object [quote], and
    then answers the same call made with a proof with a 200, the two
    calls in sequence give first the payment request built from
    [quote] and then a success marked "completed"; exactly two
    requests are logged, in that order, alike in everything but the
    payment headers. *)
Theorem call_api_paid_retry self endpoint params method verb proof log unpaid quote paid :
  upper method = verb_name verb →
  proof ≠ "" →
  server log (request_for verb self endpoint params None) = Return unpaid →
  status_code unpaid = 402 →
  json unpaid = Some (PDict quote) →
  server (log ++ [request_for verb self endpoint params None])
         (request_for verb self endpoint params (Some proof))
  = Return paid →
  status_code paid = 200 →
  (first ← call_api server py_repr self endpoint params method None;
   second ← call_api server py_repr self endpoint params method (Some proof);
   mret (first, second)) log
  = (Return (payment_required_outcome py_repr quote,
             {[ "success" := PBool true;
                "data" := default (PDict {[ "text" := PStr (text paid) ]}) (json paid);
                "payment_status" := PStr "completed" ]}),
     log ++ [request_for verb self endpoint params None;
             request_for verb self endpoint params (Some proof)])
  ∧ rq_headers (request_for verb self endpoint params None) = ∅
  ∧ rq_headers (request_for verb self endpoint params (Some proof))
    = {[ "X-Payment-TxHash" := proof; "X-Payment-Chain" := PAYMENT_CHAIN ]}.
Proof.
  intros Hm Hne H402 Hs402 Hj H200 Hs.
  apply String.eqb_neq in Hne.
  split; [|split; [done|by simpl; unfold payment_headers; simpl; rewrite Hne]].
  unfold mbind at 1. unfold io_bind.
  rewrite (call_api_402 _ _ _ _ _ _ _ _ _ _ (Some quote) Hm H402 Hs402) by done.
  unfold mbind at 1. unfold io_bind.
  rewrite (call_api_supported _ _ _ _ _ _ _ _ _ Hm), H200.
  cbn [mbind result_bind].
  rewrite (handle_response_200 _ _ _ Hs). unfold success_outcome, payment_body.
  cbn [truthy default]. rewrite Hne. cbn [negb].
  unfold mret, io_ret. by rewrite <- app_assoc.
Qed.

(** X11: each convenience method is one call of [call_api] on a fixed
    endpoint with its argument under a fixed key: weather, search,
    crypto and scraper make a GET with the argument in the query
    (under city, q, symbol and url), the image method makes a POST with
    the argument in the JSON body under prompt.  The payment proof is
    handed on as given, and the outcome is what [call_api] makes of
    the server's answer to that one request. *)
Theorem convenience_calls self arg hash log :
  call_weather_api server py_repr self arg hash log
  = (match server log (request_for GET self "/api/weather"
                         (Some {[ "city" := PStr arg ]}) hash)
           ≫= handle_response py_repr hash with
     | Return o => Return o
     | Raise e => on_exception self e
     end,
     log ++ [request_for GET self "/api/weather" (Some {[ "city" := PStr arg ]}) hash])
  ∧ call_search_api server py_repr self arg hash log
  = (match server log (request_for GET self "/api/search"
                         (Some {[ "q" := PStr arg ]}) hash)
           ≫= handle_response py_repr hash with
     | Return o => Return o
     | Raise e => on_exception self e
     end,
     log ++ [request_for GET self "/api/search" (Some {[ "q" := PStr arg ]}) hash])
  ∧ call_crypto_api server py_repr self arg hash log
  = (match server log (request_for GET self "/api/crypto"
                         (Some {[ "symbol" := PStr arg ]}) hash)
           ≫= handle_response py_repr hash with
     | Return o => Return o
     | Raise e => on_exception self e
     end,
     log ++ [request_for GET self "/api/crypto" (Some {[ "symbol" := PStr arg ]}) hash])
  ∧ call_image_api server py_repr self arg hash log
  = (match server log (request_for POST self "/api/image"
                         (Some {[ "prompt" := PStr arg ]}) hash)
           ≫= handle_response py_repr hash with
     | Return o => Return o
     | Raise e => on_exception self e
     end,
     log ++ [request_for POST self "/api/image" (Some {[ "prompt" := PStr arg ]}) hash])
  ∧ call_scraper_api server py_repr self arg hash log
  = (match server log (request_for GET self "/api/scrape"
                         (Some {[ "url" := PStr arg ]}) hash)
           ≫= handle_response py_repr hash with
     | Return o => Return o
     | Raise e => on_exception self e
     end,
     log ++ [request_for GET self "/api/scrape" (Some {[ "url" := PStr arg ]}) hash]).
Proof.
  unfold call_weather_api, call_search_api, call_crypto_api, call_image_api,
    call_scraper_api.
  repeat split; by apply call_api_supported.
Qed.

End CallApiRequests.

(** ** More on search and lookup *)

Lemma prefix_true (q s : string) : String.prefix q s = true → ∃ b, s = q +:+ b.
Proof.
  revert s. induction q as [|c q IH]; intros s H; [by exists s|].
  destruct s as [|c' s]; [done|]. simpl in H.
  destruct (Ascii.ascii_dec c c') as [<-|]; [|done].
  destruct (IH _ H) as [b ->]. by exists b.
Qed.

Lemma str_contains_split (q s : string) :
  str_contains q s = true → ∃ a b, s = a +:+ q +:+ b.
Proof.
  induction s as [|c s IH]; unfold str_contains; fold str_contains.
  - rewrite orb_false_r. intros [b ->]%prefix_true. by exists "", b.
  - intros [[b Hb]%prefix_true | H]%orb_true_iff.
    + exists "", b. by rewrite Hb.
    + destruct (IH H) as (a & b & ->). by exists (String c a), b.
Qed.

(** Occurring in is transitive. *)
Lemma str_contains_trans (q1 q2 s : string) :
  str_contains q1 q2 = true → str_contains q2 s = true → str_contains q1 s = true.
Proof.
  intros (a & b & ->)%str_contains_split (c & d & ->)%str_contains_split.
  rewrite !str_app_assoc, <- (str_app_assoc c a).
  apply str_contains_app.
Qed.

Lemma str_contains_refl (s : string) : str_contains s s = true.
Proof. rewrite <- (app_empty_r s) at 2. apply str_contains_here. Qed.

Lemma any_tag_narrow (q1 q2 : string) (tags : list pyval) (found : bool) :
  str_contains q1 q2 = true →
  any_tag q2 tags = Return found →
  ∃ found', any_tag q1 tags = Return found' ∧ (found = true → found' = true).
Proof.
  intros Hq. induction tags as [|tag tags IH]; simpl; [by eauto|].
  destruct (py_lower tag) as [t|e]; simpl; [|done].
  destruct (str_contains q2 t) eqn:E2.
  - intros [= <-]. rewrite (str_contains_trans _ _ _ Hq E2). by eauto.
  - intros H. destruct (str_contains q1 t); [by eauto|]. by apply IH.
Qed.

Lemma svc_matches_narrow (q1 q2 : string) (svc : pyval) (keep : bool) :
  str_contains q1 q2 = true →
  svc_matches q2 svc = Return keep →
  ∃ keep', svc_matches q1 svc = Return keep' ∧ (keep = true → keep' = true).
Proof.
  intros Hq. unfold svc_matches.
  destruct (py_get svc "name" (PStr "")) as [n|e]; simpl; [|done].
  destruct (py_lower n) as [ln|e]; simpl; [|done].
  destruct (str_contains q2 ln) eqn:En.
  { intros [= <-]. rewrite (str_contains_trans _ _ _ Hq En). by eauto. }
  destruct (str_contains q1 ln); [by eauto|].
  destruct (py_get svc "description" (PStr "")) as [d|e]; simpl; [|done].
  destruct (py_lower d) as [ld|e]; simpl; [|done].
  destruct (str_contains q2 ld) eqn:Ed.
  { intros [= <-]. rewrite (str_contains_trans _ _ _ Hq Ed). by eauto. }
  destruct (str_contains q1 ld); [by eauto|].
  destruct (py_get svc "tags" (PList [])) as [t|e]; simpl; [|done].
  destruct (py_iter t) as [ts|e]; simpl; [|done].
  by apply any_tag_narrow.
Qed.

Lemma comprehension_narrow (q1 q2 : string) (services narrow : list pyval) :
  str_contains q1 q2 = true →
  comprehension q2 services = Return narrow →
  ∃ wide, comprehension q1 services = Return wide ∧ sublist narrow wide.
Proof.
  intros Hq. revert narrow.
  induction services as [|svc services IH]; simpl; intros narrow.
  { intros [= <-]. by eauto. }
  destruct (svc_matches q2 svc) as [k2|e] eqn:E2; simpl; [|done].
  destruct (svc_matches_narrow _ _ _ _ Hq E2) as (k1 & -> & Hk). simpl.
  destruct (comprehension q2 services) as [n|e]; simpl; [|done].
  destruct (IH n eq_refl) as (w & -> & Hsub). simpl.
  intros [= <-]. eexists. split; [done|].
  destruct k2; [rewrite Hk by done; by constructor|].
  destruct k1; [by constructor|done].
Qed.

(** What a comprehension that ends returns: a sublist of the items, all
    of whose members satisfy the condition, and which holds every item
    that does. *)
Lemma comprehension_sound (q : string) (services results : list pyval) :
  comprehension q services = Return results →
  sublist results services
  ∧ (∀ svc, svc ∈ results → svc_matches q svc = Return true)
  ∧ (∀ svc, svc ∈ services → svc_matches q svc = Return true → svc ∈ results).
Proof.
  revert results. induction services as [|svc services IH]; simpl; intros results.
  { intros [= <-]. split; [constructor|]. split; [by intros ? ?%elem_of_nil|done]. }
  destruct (svc_matches q svc) as [keep|e] eqn:E; simpl; [|done].
  destruct (comprehension q services) as [rest|e]; simpl; [|done].
  destruct (IH rest eq_refl) as (Hsub & Hin & Hall). intros [= <-].
  destruct keep.
  - split; [by constructor|]. split.
    + intros x [->|Hx]%elem_of_cons; [done|by apply Hin].
    + intros x [->|Hx]%elem_of_cons Hm; [by left|]. right. by apply Hall.
  - split; [by constructor|]. split; [done|].
    intros x [->|Hx]%elem_of_cons Hm; [congruence|]. by apply Hall.
Qed.

Lemma first_named_found (service_name : string) (services : list pyval) (svc : pyval) :
  first_named service_name services = Return (Some svc) →
  svc ∈ services
  ∧ ∃ name, py_get svc "name" (PStr "") = Return (PStr name)
            ∧ lower name = lower service_name.
Proof.
  induction services as [|x services IH]; simpl; [done|].
  destruct (py_get x "name" (PStr "")) as [n|e] eqn:En; simpl; [|done].
  destruct n; simpl; try done.
  destruct (String.eqb_spec (lower s) (lower service_name)) as [E|E].
  - intros [= <-]. split; [by left|]. by exists s.
  - intros H. destruct (IH H) as (Hin & Hname). split; [by right|done].
Qed.

Section SearchMore.

Variable server : list Request → Request → result Response.

(** X12: the letter case of the query does not matter.  Two queries
    that are equal up to case give the same result of
    [search_services], and two names that are equal up to case the
    same result of [get_service_details], on any discovery result,
    well formed or not. *)
Theorem search_ignores_case self log (a b : string) :
  eq_nocase a b →
  search_services server self a log = search_services server self b log
  ∧ get_service_details server self a log = get_service_details server self b log.
Proof.
  unfold eq_nocase. intros H. split.
  - by rewrite !search_services_eq, H.
  - rewrite !get_service_details_eq. do 2 f_equal.
    destruct (fst (discover_services server self log)) as [v|e]; simpl; [|done].
    destruct (py_iter v) as [items|e]; simpl; [|done].
    induction items as [|x items IH]; simpl; [done|].
    destruct (py_get x "name" (PStr "")) as [n|e]; simpl; [|done].
    destruct (py_lower n) as [ln|e]; simpl; [|done].
    rewrite H. by destruct (String.eqb ln (lower b)).
Qed.

(** X13: whenever [search_services] returns, what it returns is a
    sublist of the items of the discovery result, in discovery order;
    every returned item passed the condition, and every discovered
    item that passes the condition is returned.  This holds for any
    discovery result, malformed records included. *)
Theorem search_services_sound self query log results :
  fst (search_services server self query log) = Return results →
  ∃ discovered items,
    fst (discover_services server self log) = Return discovered
    ∧ py_iter discovered = Return items
    ∧ sublist results items
    ∧ (∀ svc, svc ∈ results → svc_matches (lower query) svc = Return true)
    ∧ (∀ svc, svc ∈ items → svc_matches (lower query) svc = Return true →
              svc ∈ results).
Proof.
  rewrite search_services_eq. simpl.
  destruct (fst (discover_services server self log)) as [v|e]; simpl; [|done].
  destruct (py_iter v) as [items|e] eqn:Hi; simpl; [|done].
  intros H. exists v, items. split; [done|]. split; [done|].
  by apply comprehension_sound.
Qed.

(** X14: a shorter query finds more.  If the lower-cased query [wide]
    occurs in the lower-cased query [narrow] and the search for
    [narrow] returns, then the search for [wide] over the same
    discovery result returns too, and the result for [narrow] is a
    sublist of the result for [wide]. *)
Theorem search_services_narrowing self log (wide narrow : string) results :
  str_contains (lower wide) (lower narrow) = true →
  fst (search_services server self narrow log) = Return results →
  ∃ more,
    fst (search_services server self wide log) = Return more
    ∧ sublist results more.
Proof.
  intros Hq. rewrite !search_services_eq. simpl.
  destruct (fst (discover_services server self log)) as [v|e]; simpl; [|done].
  destruct (py_iter v) as [items|e]; simpl; [|done].
  by apply comprehension_narrow.
Qed.

(** X15: what [get_service_details] finds, [search_services] finds.
    If a lookup by name returns a service and the search with that
    name as query, over the same discovery result, returns, then the
    service is among the results of the search. *)
Theorem lookup_within_search self log (service_name : string) svc results :
  fst (get_service_details server self service_name log) = Return (Some svc) →
  fst (search_services server self service_name log) = Return results →
  svc ∈ results.
Proof.
  rewrite get_service_details_eq, search_services_eq. simpl.
  destruct (fst (discover_services server self log)) as [v|e]; simpl; [|done].
  destruct (py_iter v) as [items|e]; simpl; [|done].
  destruct (first_named service_name items) as [found|e] eqn:Hf; [|done].
  intros [= ->] Hc.
  destruct (first_named_found _ _ _ Hf) as (Hin & name & Hget & Hname).
  destruct (comprehension_sound _ _ _ Hc) as (_ & _ & Hall).
  apply Hall; [done|].
  unfold svc_matches. rewrite Hget. simpl. by rewrite Hname, str_contains_refl.
Qed.

(** X16: [search_services] raises whatever [discover_services] raises,
    unchanged, where [get_service_details] answers [None]. *)
Theorem search_services_propagates self query log e :
  fst (discover_services server self log) = Raise e →
  fst (search_services server self query log) = Raise e
  ∧ fst (get_service_details server self query log) = Return None.
Proof.
  intros H. by rewrite search_services_eq, get_service_details_eq, H.
Qed.

End SearchMore.

(** X17: the client is never left without a base URL.  A missing or
    empty [base_url] falls back to the production URL, any other is
    kept as given; the timeout is kept as given. *)
Theorem init_base_url (url : option string) (seconds : Z) :
  base_url (init url seconds) ≠ ""
  ∧ timeout (init url seconds) = seconds
  ∧ base_url (init url seconds)
    = match url with
      | Some given => if decide (given = "") then BASE_URL else given
      | None => BASE_URL
      end.
Proof.
  unfold init. simpl. destruct url as [given|]; simpl; [|done].
  destruct (String.eqb_spec given "") as [->|Hne]; simpl; [done|].
  by rewrite decide_False.
Qed.

(** * Properties of the plugin *)

Section PluginProperties.

Variable server : list Request → Request → result Response.
Variable py_repr : pyval → string.
Variable json_dumps : pyval → string.
Variable exc_text : pyexc → string.

(** An outcome of [call_api] is of one of three shapes. *)
Lemma call_api_returns_shape self endpoint params method hash log o :
  fst (call_api server py_repr self endpoint params method hash log) = Return o →
  (∃ response, o = success_outcome hash response)
  ∨ (∃ body, o = payment_required_outcome py_repr body)
  ∨ (∃ error, o = failure error).
Proof.
  destruct (method_cases method) as [[verb Hm]|[Hget Hpost]].
  2: { rewrite call_api_unsupported by done. intros [= <-]. right; right. by eexists. }
  rewrite (call_api_supported _ _ _ _ _ _ _ _ _ Hm). simpl.
  destruct (server log _) as [r|e]; simpl.
  2: { intros [_ ?]%on_exception_returns. by right; right. }
  destruct (handle_response py_repr hash r) as [o'|e] eqn:Hh.
  2: { intros [_ ?]%on_exception_returns. by right; right. }
  intros [= ->].
  apply handle_response_returns in Hh
    as [[_ ->]|[[_ (parsed & _ & ->)]|(_ & _ & error & ->)]];
    [left | right; left | right; right]; by eexists.
Qed.

Lemma post_command_eq self command response log :
  post_command server self command response log
  = if _enabled self
       && (str_contains "x402" (lower command) || str_contains "api" (lower command))
       && str_contains "search" (lower command)
    then
      (Return match fst (discover_services server (client self) log) with
              | Return services =>
                  match py_len services with
                  | Return count =>
                      if py_truthy services
                      then response +:+ LF +:+ LF +:+ "[x402 Bazaar] "
                           +:+ string_of_Z count +:+ " APIs available. "
                           +:+ "Use 'x402 list' to see all services."
                      else response
                  | Raise _ => response
                  end
              | Raise _ => response
              end,
       log ++ [discovery_request (client self)])
    else (Return response, log).
Proof.
  unfold post_command. destruct (_enabled self); simpl; [|done].
  destruct (str_contains "x402" (lower command) || str_contains "api" (lower command));
    simpl; [|done].
  unfold try_except.
  destruct (str_contains "search" (lower command)); simpl; [|done].
  unfold mbind, io_bind. rewrite (discover_services_eq server (client self) log).
  simpl. destruct (discovered _) as [v|e]; simpl; [|done].
  by destruct (py_truthy v), (py_len v).
Qed.

(** X18: [post_command] never raises and never takes anything away from
    the response: it returns the response as given or the response
    followed by the banner.  It contacts the server, with the one
    request of discovery, only when the plugin is enabled and the
    lower-cased command contains "search" and one of "x402" and "api";
    otherwise no request is made.  The banner is added exactly when
    that discovery returned a collection that is not empty, and it
    shows the number of its items. *)
Theorem post_command_banner self command response log :
  ∃ text suffix,
    fst (post_command server self command response log) = Return text
    ∧ text = response +:+ suffix
    ∧ (_enabled self
       && (str_contains "x402" (lower command) || str_contains "api" (lower command))
       && str_contains "search" (lower command) = false →
       suffix = "" ∧ snd (post_command server self command response log) = log)
    ∧ (_enabled self
       && (str_contains "x402" (lower command) || str_contains "api" (lower command))
       && str_contains "search" (lower command) = true →
       snd (post_command server self command response log)
       = log ++ [discovery_request (client self)]
       ∧ (∀ e, fst (discover_services server (client self) log) = Raise e → suffix = "")
       ∧ (∀ services count,
            fst (discover_services server (client self) log) = Return services →
            py_len services = Return count →
            suffix = if count =? 0 then ""
                     else LF +:+ LF +:+ "[x402 Bazaar] " +:+ string_of_Z count
                          +:+ " APIs available. "
                          +:+ "Use 'x402 list' to see all services.")).
Proof.
  rewrite post_command_eq.
  destruct (_enabled self && _ && _) eqn:Hc; simpl.
  2: { exists response, "". rewrite app_empty_r. by repeat split. }
  destruct (fst (discover_services server (client self) log)) as [v|e] eqn:Hd.
  2: { exists response, "". rewrite app_empty_r. by repeat split. }
  destruct (py_len v) as [n|e] eqn:Hl.
  2: { apply discover_services_returns in Hd as (r & _ & _ & _ & Hv).
       destruct v; simpl in *; discriminate. }
  assert (Ht : py_truthy v = negb (n =? 0)).
  { destruct v; simpl in Hl; try discriminate Hl; injection Hl as <-; simpl.
    - by destruct s.
    - by destruct l.
    - by destruct (size d). }
  rewrite Ht. destruct (n =? 0) eqn:Hn; simpl.
  - exists response, "". rewrite app_empty_r. repeat split; try done.
    intros services count [= <-]. rewrite Hl. intros [= <-]. by rewrite Hn.
  - eexists _, _. split; [done|]. split; [done|]. repeat split; try done.
    intros services count [= <-]. rewrite Hl. intros [= <-]. by rewrite Hn.
Qed.

End PluginProperties.

Section PluginCalls.

Variable server : list Request → Request → result Response.
Variable py_repr : pyval → string.
Variable json_dumps : pyval → string.
Variable exc_text : pyexc → string.

Lemma handle_call_api_eq self endpoint params method console log :
  _handle_call_api server py_repr json_dumps exc_text self endpoint params method
    console log
  = (Return
       match fst (call_api server py_repr (client self) endpoint params method None log)
       with
       | Return result =>
           ({| _enabled := _enabled self;
               _command_cache := <["x402_api_call" := call_info endpoint result]>
                                   (_command_cache self);
               client := client self |},
            (console ++ ["[x402 Bazaar] Calling " +:+ method +:+ " " +:+ endpoint
                         +:+ "..."])
            ++ if py_truthy (default PNone (result !! "success"))
               then ["[x402 Bazaar] Success! Response:";
                     json_dumps (default PNone (result !! "data"))]
               else ["[x402 Bazaar] Error: " +:+
                     py_format py_repr
                       (default (PStr "Unknown error") (result !! "error"))])
       | Raise e =>
           (self,
            (console ++ ["[x402 Bazaar] Calling " +:+ method +:+ " " +:+ endpoint
                         +:+ "..."])
            ++ ["[x402 Bazaar] Error calling API: " +:+ exc_text e])
       end,
     snd (call_api server py_repr (client self) endpoint params method None log)).
Proof.
  unfold _handle_call_api, try_except. unfold mbind, io_bind.
  destruct (call_api server py_repr (client self) endpoint params method None log)
    as [[result|e] log']; simpl; [|done].
  by destruct (py_truthy (default PNone (result !! "success"))).
Qed.

(** X19: [_handle_call_api] never raises and makes the requests of its
    one [call_api] and no other.  When that call raises, the cache is
    left as it was and the console shows the exception.  When it
    returns, the cache entry of the call holds the endpoint, a cost
    and a payment status: the status is "free" when the outcome is a
    success and "unknown" in every other case, never "completed",
    since no payment proof is ever passed; the cost is the cost of the
    outcome when payment is required and "unknown" on a success.  On a
    payment request the console shows "Error: Unknown error". *)
Theorem handle_call_api_entry self endpoint params method console log :
  ∃ self' console',
    _handle_call_api server py_repr json_dumps exc_text self endpoint params method
      console log
    = (Return (self', console'),
       snd (call_api server py_repr (client self) endpoint params method None log))
    ∧ _enabled self' = _enabled self
    ∧ client self' = client self
    ∧ (∀ e, fst (call_api server py_repr (client self) endpoint params method None log)
            = Raise e →
         _command_cache self' = _command_cache self
         ∧ console' = console
             ++ ["[x402 Bazaar] Calling " +:+ method +:+ " " +:+ endpoint +:+ "...";
                 "[x402 Bazaar] Error calling API: " +:+ exc_text e])
    ∧ (∀ o, fst (call_api server py_repr (client self) endpoint params method None log)
            = Return o →
         ∃ cost status,
           _command_cache self'
           = <["x402_api_call" := PDict {[ "endpoint" := PStr endpoint;
                                           "cost" := cost;
                                           "payment_status" := PStr status ]}]>
               (_command_cache self)
           ∧ (is_success o → status = "free" ∧ cost = PStr "unknown")
           ∧ (¬ is_success o → status = "unknown")
           ∧ (is_payment_required o →
              o !! "cost_usdc" = Some cost
              ∧ console' = console
                  ++ ["[x402 Bazaar] Calling " +:+ method +:+ " " +:+ endpoint +:+ "...";
                      "[x402 Bazaar] Error: Unknown error"])).
Proof.
  rewrite handle_call_api_eq.
  destruct (fst (call_api server py_repr (client self) endpoint params method None log))
    as [o|e] eqn:Hcall.
  2: { eexists _, _. split; [done|]. split; [done|]. split; [done|].
       split; [|by intros o [=]].
       intros e' [= <-]. split; [done|]. by rewrite <- app_assoc. }
  eexists _, _. split; [done|]. split; [done|]. split; [done|]. split; [done|].
  intros o' [= <-]. unfold call_info.
  destruct (call_api_returns_shape _ _ _ _ _ _ _ _ _ Hcall)
    as [[r ->]|[[body ->]|[error ->]]];
    unfold is_success, is_payment_required, success_outcome, payment_required_outcome,
      failure; simplify_map_eq; eexists _, _; (split; [done|]).
  - split; [done|]. split; [intros H; by destruct H|]. by intros [=].
  - split; [by intros [=]|]. split; [done|]. intros _. split; [done|].
    by rewrite <- app_assoc.
  - split; [by intros [=]|]. split; [done|]. by intros [=].
Qed.

Lemma print_call_info_dict info console :
  print_call_info py_repr (PDict info) console
  = (Return (),
     console ++ ["[x402 Bazaar] API call completed:";
                 "  Endpoint: " +:+ py_format py_repr
                                    (default (PStr "unknown") (info !! "endpoint"));
                 "  Cost: " +:+ py_format py_repr
                                (default (PStr "unknown") (info !! "cost")) +:+ " USDC";
                 "  Payment: " +:+ py_format py_repr
                                   (default (PStr "unknown") (info !! "payment_status"))]).
Proof. unfold print_call_info. simpl. by rewrite <- !app_assoc. Qed.

(** X20: [on_response] hands the response back unchanged.  When the
    plugin is enabled it leaves the cache empty, and it prints the
    four lines about the last call exactly when the cache held an
    entry for it, with "unknown" in place of each field the entry
    lacks; when the plugin is disabled it prints nothing and leaves
    the cache as it is.  (The entry, which only [_handle_call_api]
    writes, is taken to be a dict.) *)
Theorem on_response_clears self response console :
  (∀ entry, _command_cache self !! "x402_api_call" = Some entry →
            ∃ info, entry = PDict info) →
  ∃ self' console',
    on_response py_repr self response console = (Return response, self', console')
    ∧ _enabled self' = _enabled self
    ∧ client self' = client self
    ∧ (_enabled self = true → _command_cache self' = ∅)
    ∧ (_enabled self = false → self' = self ∧ console' = console)
    ∧ (_command_cache self !! "x402_api_call" = None → console' = console)
    ∧ (_enabled self = true →
       ∀ info, _command_cache self !! "x402_api_call" = Some (PDict info) →
         console' = console
           ++ ["[x402 Bazaar] API call completed:";
               "  Endpoint: " +:+ py_format py_repr
                                  (default (PStr "unknown") (info !! "endpoint"));
               "  Cost: " +:+ py_format py_repr
                              (default (PStr "unknown") (info !! "cost")) +:+ " USDC";
               "  Payment: " +:+ py_format py_repr
                                 (default (PStr "unknown")
                                    (info !! "payment_status"))]).
Proof.
  intros Hdict. unfold on_response.
  destruct (_enabled self) eqn:He; simpl.
  2: { eexists _, _. split; [done|]. by repeat split. }
  destruct (Nat.eqb (size (_command_cache self)) 0) eqn:Hsize; simpl.
  { apply Nat.eqb_eq, map_size_empty_iff in Hsize.
    eexists _, _. split; [done|]. rewrite Hsize, lookup_empty. by repeat split. }
  destruct (_command_cache self !! "x402_api_call") as [entry|] eqn:Hentry.
  - destruct (Hdict entry eq_refl) as [info ->].
    rewrite print_call_info_dict.
    eexists _, _. split; [done|]. split; [done|]. split; [done|]. split; [done|].
    split; [by intros [=]|]. split; [by intros [=]|]. by intros _ info' [= <-].
  - eexists _, _. split; [done|]. by repeat split.
Qed.

Lemma cache_not_empty (cache : gmap string pyval) k v :
  cache !! k = Some v → py_truthy (PDict cache) = true.
Proof.
  intros H. cbn [py_truthy]. apply negb_true_iff, Nat.eqb_neq.
  intros Hsize. apply map_size_empty_iff in Hsize. by rewrite Hsize in H.
Qed.

Lemma on_response_entry self response console info :
  _enabled self = true →
  _command_cache self !! "x402_api_call" = Some (PDict info) →
  on_response py_repr self response console
  = (Return response,
     {| _enabled := true; _command_cache := ∅; client := client self |},
     console ++ ["[x402 Bazaar] API call completed:";
                 "  Endpoint: " +:+ py_format py_repr
                                    (default (PStr "unknown") (info !! "endpoint"));
                 "  Cost: " +:+ py_format py_repr
                                (default (PStr "unknown") (info !! "cost")) +:+ " USDC";
                 "  Payment: " +:+ py_format py_repr
                                   (default (PStr "unknown") (info !! "payment_status"))]).
Proof.
  intros He Hentry. unfold on_response.
  rewrite He, (cache_not_empty _ _ _ Hentry), Hentry. cbn [andb].
  by rewrite print_call_info_dict.
Qed.

Lemma on_response_nothing self response console :
  _command_cache self = ∅ →
  on_response py_repr self response console = (Return response, self, console).
Proof.
  intros Hc. unfold on_response. rewrite Hc. cbn [py_truthy].
  rewrite map_size_empty. cbn [Nat.eqb negb]. by rewrite andb_false_r.
Qed.

(** X21: the two hooks together.  On an enabled plugin with an empty
    cache, [_handle_call_api] followed by [on_response] never raises,
    hands the response back unchanged and leaves the cache empty
    again; [on_response] adds its four lines exactly when the call
    returned an outcome, and they show the endpoint, the cost of the
    outcome ("unknown" when it has none) and its payment status
    ("unknown" when it has none). *)
Theorem handle_call_api_then_on_response self endpoint params method console log
    response :
  _enabled self = true →
  _command_cache self = ∅ →
  ∃ self1 console1 self2 console2,
    _handle_call_api server py_repr json_dumps exc_text self endpoint params method
      console log
    = (Return (self1, console1),
       snd (call_api server py_repr (client self) endpoint params method None log))
    ∧ on_response py_repr self1 response console1 = (Return response, self2, console2)
    ∧ _command_cache self2 = ∅
    ∧ (∀ e, fst (call_api server py_repr (client self) endpoint params method None log)
            = Raise e → console2 = console1)
    ∧ (∀ o, fst (call_api server py_repr (client self) endpoint params method None log)
            = Return o →
         console2 = console1
           ++ ["[x402 Bazaar] API call completed:";
               "  Endpoint: " +:+ endpoint;
               "  Cost: " +:+ py_format py_repr
                              (default (PStr "unknown") (o !! "cost_usdc")) +:+ " USDC";
               "  Payment: " +:+ py_format py_repr
                                 (default (PStr "unknown") (o !! "payment_status"))]).
Proof.
  intros He Hc. rewrite handle_call_api_eq.
  destruct (fst (call_api server py_repr (client self) endpoint params method None log))
    as [o|e] eqn:Hcall.
  - eexists _, _, _, _. split; [done|]. split.
    { apply on_response_entry; [exact He|]. cbn [_command_cache].
      unfold call_info. apply lookup_insert_eq. }
    split; [done|]. split; [by intros e [=]|].
    intros o' [= <-].
    rewrite lookup_insert_eq.
    rewrite (lookup_insert_ne _ "endpoint" "cost") by done.
    rewrite lookup_insert_eq.
    rewrite (lookup_insert_ne _ "endpoint" "payment_status") by done.
    rewrite (lookup_insert_ne _ "cost" "payment_status") by done.
    by rewrite lookup_singleton_eq.
  - eexists _, _, _, _. split; [done|]. split.
    { by apply on_response_nothing. }
    split; [done|]. split; [done|]. by intros o [=].
Qed.

End PluginCalls.

(** * Where the code falls short of its own handling *)

(** The branches of [call_api] for the statuses 402 and 400 and for
    the statuses it does not know read the parsed body with [.get],
    as if JSON were always an object.  When the body is JSON of
    another kind (an array, [null], a number, a string) the read raises
    [AttributeError], which is neither of the exceptions [call_api]
    catches, so that the caller gets an exception where every other
    path hands back an outcome with [success] false.  The three
    theorems below run the code on such bodies; they show one and the
    same defect. *)

(** C1: on a 402 response whose body is the JSON array [[]],
    [call_api] returns no outcome at all, hence no payment-required
    outcome with its [payment_details]: the array has no [get], and
    the [AttributeError] leaves [call_api] after its one request. *)
Theorem call_api_402_array_body :
  call_api (answering array_402) sample_repr production "/api/weather" paris "GET" None []
  = (Raise (attribute_error "get"),
     [request_for GET production "/api/weather" paris None])
  ∧ ¬ ∃ o, fst (call_api (answering array_402) sample_repr production
                  "/api/weather" paris "GET" None []) = Return o.
Proof.
  assert (E : call_api (answering array_402) sample_repr production
                "/api/weather" paris "GET" None []
              = (Raise (attribute_error "get"),
                 [request_for GET production "/api/weather" paris None]))
    by (vm_compute; reflexivity).
  split; [exact E|]. rewrite E. by intros [o Ho].
Qed.

(** C2: on a 402 response whose body is the JSON value [null], which
    has neither [amount] nor [required_payment], no outcome reports
    the cost "unknown": [None] has no [get], and [call_api] raises
    [AttributeError]. *)
Theorem call_api_402_null_body :
  fst (call_api (answering null_402) sample_repr production "/api/weather" paris "GET" None [])
  = Raise (attribute_error "get")
  ∧ ¬ ∃ o, fst (call_api (answering null_402) sample_repr production
                  "/api/weather" paris "GET" None []) = Return o
           ∧ o !! "cost_usdc" = Some (PStr "unknown").
Proof.
  assert (E : fst (call_api (answering null_402) sample_repr production
                     "/api/weather" paris "GET" None [])
              = Raise (attribute_error "get")) by (vm_compute; reflexivity).
  split; [exact E|]. rewrite E. by intros (o & Ho & _).
Qed.

(** C7: on a 404 response whose body is the JSON array [[]], which
    parses and has no [error] field, [call_api] does not return the
    failure "HTTP 404": a list has no [get], and [call_api] raises
    [AttributeError]. *)
Theorem call_api_404_array_body :
  fst (call_api (answering array_404) sample_repr production "/api/weather" paris "GET" None [])
  = Raise (attribute_error "get")
  ∧ fst (call_api (answering array_404) sample_repr production "/api/weather" paris "GET" None [])
    ≠ Return {[ "success" := PBool false; "error" := PStr "HTTP 404" ]}.
Proof.
  assert (E : fst (call_api (answering array_404) sample_repr production
                     "/api/weather" paris "GET" None [])
              = Raise (attribute_error "get")) by (vm_compute; reflexivity).
  split; [exact E|]. by rewrite E.
Qed.

End Python.

(** * Counterexamples to the specification as worded *)

(** C10 as stated fails on a service with no [name] when the wanted
    name is empty: the missing name counts as the empty string, so the
    service is the match, not a non-match.  The empty string is all
    ASCII, so that the outcome is the same under every case mapping. *)
Lemma get_service_details_nameless_match :
  get_service_details unmapped (answering (json_response 200 (PList [nameless_service])))
    production "" []
  = (Return (Some nameless_service), [discovery_request production])
  ∧ get_service_details unmapped (answering (json_response 200 (PList [nameless_service])))
      production "" []
    ≠ (Return None, [discovery_request production]).
Proof.
  assert (E : get_service_details unmapped
                (answering (json_response 200 (PList [nameless_service])))
                production "" []
              = (Return (Some nameless_service), [discovery_request production]))
    by (vm_compute; reflexivity).
  split; [exact E|]. by rewrite E.
Qed.

(** * The theorems at work

    Each theorem above that has premises is applied here to a concrete
    client, server and call, the premises being checked by evaluation. *)

Lemma call_api_unsupported_method_witness :
  upper unmapped "DELETE" ≠ "GET"
  ∧ upper unmapped "DELETE" ≠ "POST"
  ∧ call_api unmapped (failing (Exc ConnectionError "unreachable")) sample_repr production
      "/api/test" None "DELETE" (Some "0xabc") []
    = (Return {[ "success" := PBool false;
                 "error" := PStr ("Unsupported HTTP method: " +:+ "DELETE") ]}, [])
  ∧ str_contains "DELETE" ("Unsupported HTTP method: " +:+ "DELETE") = true.
Proof.
  assert (Hget : upper unmapped "DELETE" ≠ "GET") by (vm_compute; discriminate).
  assert (Hpost : upper unmapped "DELETE" ≠ "POST") by (vm_compute; discriminate).
  split; [exact Hget|]. split; [exact Hpost|].
  exact (call_api_unsupported_method unmapped (failing (Exc ConnectionError "unreachable"))
           sample_repr production "/api/test" None "DELETE" (Some "0xabc") []
           Hget Hpost).
Defined.

Lemma call_api_ok_witness :
  upper unmapped "get" = verb_name GET
  ∧ answering (text_response 200 "plain text response") []
      (request_for GET production "/api/test" None (Some "0xabc"))
    = Return (text_response 200 "plain text response")
  ∧ status_code (text_response 200 "plain text response") = 200
  ∧ call_api unmapped (answering (text_response 200 "plain text response")) sample_repr
      production "/api/test" None "get" (Some "0xabc") []
    = (Return {[ "success" := PBool true;
                 "data" := PDict {[ "text" := PStr "plain text response" ]};
                 "payment_status" := PStr "completed" ]},
       [] ++ [request_for GET production "/api/test" None (Some "0xabc")]).
Proof.
  split; [reflexivity|]. split; [reflexivity|]. split; [reflexivity|].
  exact (call_api_ok unmapped (answering (text_response 200 "plain text response")) sample_repr
           production "/api/test" None "get" GET (Some "0xabc") []
           (text_response 200 "plain text response") eq_refl eq_refl eq_refl).
Defined.

Lemma call_api_transport_failure_witness :
  upper unmapped "POST" = verb_name POST
  ∧ failing (Exc Timeout "") [] (request_for POST production "/api/image" None None)
    = Raise (Exc Timeout "")
  ∧ is_request_exception (Exc Timeout "") = true
  ∧ call_api unmapped (failing (Exc Timeout "")) sample_repr production "/api/image" None "POST" None []
    = (Return {[ "success" := PBool false;
                 "error" := PStr ("Request timeout after " +:+ string_of_Z 30
                                  +:+ " seconds") ]},
       [] ++ [request_for POST production "/api/image" None None]).
Proof.
  split; [reflexivity|]. split; [reflexivity|]. split; [reflexivity|].
  exact (call_api_transport_failure unmapped (failing (Exc Timeout "")) sample_repr production
           "/api/image" None "POST" POST None [] (Exc Timeout "")
           eq_refl eq_refl eq_refl).
Defined.

Lemma call_api_payment_details_witness :
  upper unmapped "GET" = verb_name GET
  ∧ answering (json_response 402 (PDict redirecting_body)) []
      (request_for GET production "/api/weather" paris None)
    = Return (json_response 402 (PDict redirecting_body))
  ∧ status_code (json_response 402 (PDict redirecting_body)) = 402
  ∧ json (json_response 402 (PDict redirecting_body)) = PDict <$> Some redirecting_body
  ∧ ∃ cost details,
      call_api unmapped (answering (json_response 402 (PDict redirecting_body))) sample_repr
        production "/api/weather" paris "GET" None []
      = (Return {[ "success" := PBool false;
                   "payment_required" := PBool true;
                   "payment_details" := PDict details;
                   "cost_usdc" := cost ]},
         [] ++ [request_for GET production "/api/weather" paris None])
      ∧ details !! "payment_address" = Some (PStr PAYMENT_ADDRESS)
      ∧ details !! "payment_chain" = Some (PStr PAYMENT_CHAIN)
      ∧ details !! "network" = Some (PStr "mainnet").
Proof.
  split; [reflexivity|]. split; [reflexivity|]. split; [reflexivity|].
  split; [reflexivity|].
  destruct (call_api_payment_details unmapped
              (answering (json_response 402 (PDict redirecting_body))) sample_repr
              production "/api/weather" paris "GET" GET None []
              (json_response 402 (PDict redirecting_body)) (Some redirecting_body)
              eq_refl eq_refl eq_refl eq_refl)
    as (cost & details & Hcall & _ & _ & Haddress & Hchain & _ & Hkept).
  exists cost, details. split; [exact Hcall|]. split; [exact Haddress|].
  split; [exact Hchain|].
  rewrite (Hkept "network"); [reflexivity|].
  unfold synthesized_keys. rewrite !not_elem_of_cons.
  repeat split; try discriminate. apply not_elem_of_nil.
Defined.

Lemma call_api_cost_witness :
  upper unmapped "GET" = verb_name GET
  ∧ answering (json_response 402 (PDict required_payment_body)) []
      (request_for GET production "/api/weather" paris None)
    = Return (json_response 402 (PDict required_payment_body))
  ∧ status_code (json_response 402 (PDict required_payment_body)) = 402
  ∧ json (json_response 402 (PDict required_payment_body))
    = PDict <$> Some required_payment_body
  ∧ ∃ o details,
      call_api unmapped (answering (json_response 402 (PDict required_payment_body))) sample_repr
        production "/api/weather" paris "GET" None []
      = (Return o, [] ++ [request_for GET production "/api/weather" paris None])
      ∧ o !! "payment_details" = Some (PDict details)
      ∧ o !! "cost_usdc" = Some (PStr "0.02")
      ∧ details !! "payment_amount" = Some (PStr "0.02").
Proof.
  split; [reflexivity|]. split; [reflexivity|]. split; [reflexivity|].
  split; [reflexivity|].
  destruct (call_api_cost unmapped
              (answering (json_response 402 (PDict required_payment_body))) sample_repr
              production "/api/weather" paris "GET" GET None []
              (json_response 402 (PDict required_payment_body))
              (Some required_payment_body) eq_refl eq_refl eq_refl eq_refl)
    as (o & details & Hcall & Hdetails & Hcost & Hamount & _).
  exists o, details. split; [exact Hcall|]. split; [exact Hdetails|].
  split; [exact Hcost | exact Hamount].
Defined.

Lemma call_api_other_status_witness :
  upper unmapped "GET" = verb_name GET
  ∧ answering (text_response 418 "I'm a teapot") []
      (request_for GET production "/api/weather" None None)
    = Return (text_response 418 "I'm a teapot")
  ∧ (status_code (text_response 418 "I'm a teapot") ∉ [200; 402; 400; 429; 500])
  ∧ call_api unmapped (answering (text_response 418 "I'm a teapot")) sample_repr production
      "/api/weather" None "GET" None []
    = (Return {[ "success" := PBool false;
                 "error" := PStr "HTTP 418: I'm a teapot" ]},
       [request_for GET production "/api/weather" None None]).
Proof.
  assert (Hs : status_code (text_response 418 "I'm a teapot") ∉ [200; 402; 400; 429; 500]).
  { simpl. rewrite !not_elem_of_cons. repeat split; try discriminate.
    apply not_elem_of_nil. }
  split; [reflexivity|]. split; [reflexivity|]. split; [exact Hs|].
  exact (proj1 (proj2 (call_api_other_status unmapped
                         (answering (text_response 418 "I'm a teapot")) sample_repr
                         production "/api/weather" None "GET" GET None []
                         (text_response 418 "I'm a teapot") eq_refl eq_refl Hs))
               eq_refl).
Defined.

Lemma call_api_outcome_invariant_witness :
  call_api unmapped (answering (text_response 402 "Payment Required")) sample_repr production
    "/api/weather" paris "GET" None []
  = (Return (payment_required_outcome unmapped sample_repr fallback_payment_details),
     [request_for GET production "/api/weather" paris None])
  ∧ ¬ (is_success (payment_required_outcome unmapped sample_repr fallback_payment_details)
       ∧ is_payment_required (payment_required_outcome unmapped sample_repr fallback_payment_details)).
Proof.
  assert (Hcall : call_api unmapped (answering (text_response 402 "Payment Required")) sample_repr
                    production "/api/weather" paris "GET" None []
                  = (Return (payment_required_outcome unmapped sample_repr fallback_payment_details),
                     [request_for GET production "/api/weather" paris None]))
    by reflexivity.
  split; [exact Hcall|].
  exact (proj1 (call_api_outcome_invariant unmapped
                  (answering (text_response 402 "Payment Required")) sample_repr
                  production "/api/weather" paris "GET" None []
                  (payment_required_outcome unmapped sample_repr fallback_payment_details)
                  [request_for GET production "/api/weather" paris None] Hcall)).
Defined.

Lemma search_services_stable_filter_witness :
  fst (discover_services (answering (json_response 200 (PList catalogue))) production [])
  = Return (PList catalogue)
  ∧ forallb is_service catalogue = true
  ∧ search_services unmapped (answering (json_response 200 (PList catalogue))) production "" []
    = (Return catalogue, [] ++ [discovery_request production]).
Proof.
  split; [reflexivity|]. split; [reflexivity|].
  exact (proj1 (search_services_stable_filter unmapped
                  (answering (json_response 200 (PList catalogue))) production []
                  catalogue eq_refl eq_refl)).
Defined.

Lemma get_service_details_first_match_witness :
  fst (discover_services (answering (json_response 200 (PList catalogue))) production [])
  = Return (PList catalogue)
  ∧ forallb is_service catalogue = true
  ∧ get_service_details unmapped (answering (json_response 200 (PList catalogue))) production
      "weather api" []
    = (Return (Some weather_service), [] ++ [discovery_request production]).
Proof.
  split; [reflexivity|]. split; [reflexivity|].
  destruct (get_service_details_first_match unmapped
              (answering (json_response 200 (PList catalogue))) production
              "weather api" [])
    as (found & Hcall & Hfound & _).
  rewrite Hcall, (Hfound catalogue eq_refl eq_refl). reflexivity.
Defined.

Lemma missing_fields_are_defaults_witness :
  is_service nameless_service = true
  ∧ svc_matches unmapped (lower unmapped "") nameless_service = Return true
  ∧ first_named unmapped "Weather API" [nameless_service; weather_service]
    = first_named unmapped "Weather API" [weather_service].
Proof.
  assert (Hs : is_service nameless_service = true) by reflexivity.
  split; [exact Hs|].
  destruct (missing_fields_are_defaults unmapped (λ s H, H) ∅ "weather" "Weather API" [weather_service] Hs)
    as (_ & Hempty & _ & _ & _ & _ & Hskip).
  split; [exact Hempty|].
  apply Hskip; [reflexivity | discriminate].
Defined.

(** * The further theorems at work *)

Lemma get_marketplace_info_fallback_witness :
  answering (text_response 200 "<html>hello</html>") [] (root_request production)
  = Return (text_response 200 "<html>hello</html>")
  ∧ ¬ error_status (status_code (text_response 200 "<html>hello</html>"))
  ∧ get_marketplace_info (answering (text_response 200 "<html>hello</html>"))
      production []
    = (Return (PDict {[ "name" := PStr "x402 Bazaar";
                        "status" := PStr "online";
                        "html" := PStr "<html>hello</html>" ]}),
       [root_request production]).
Proof.
  assert (Hs : ¬ error_status (status_code (text_response 200 "<html>hello</html>")))
    by (unfold error_status; simpl; lia).
  split; [reflexivity|]. split; [exact Hs|].
  exact (proj1 (get_marketplace_info_fallback
                  (answering (text_response 200 "<html>hello</html>")) production []
                  (text_response 200 "<html>hello</html>") eq_refl Hs)).
Defined.

Lemma call_api_raises_witness :
  upper unmapped "GET" = verb_name GET
  ∧ failing (Exc OtherException "boom") []
      (request_for GET production "/api/weather" paris None)
    = Raise (Exc OtherException "boom")
  ∧ is_request_exception (Exc OtherException "boom") = false
  ∧ fst (call_api unmapped (failing (Exc OtherException "boom")) sample_repr production
           "/api/weather" paris "GET" None [])
    = Raise (Exc OtherException "boom").
Proof.
  split; [reflexivity|]. split; [reflexivity|]. split; [reflexivity|].
  exact (proj1 (call_api_raises unmapped (failing (Exc OtherException "boom"))
                  sample_repr production "/api/weather" paris "GET" GET None []
                  eq_refl)
               (Exc OtherException "boom") eq_refl eq_refl).
Defined.

Lemma call_api_single_request_witness :
  upper unmapped "post" = verb_name POST
  ∧ ∃ rq,
      snd (call_api unmapped (failing (Exc ConnectionError "refused")) sample_repr production
             "/api/image" paris "post" (Some "0xabc") [])
      = [] ++ [rq]
      ∧ rq_method rq = POST
      ∧ rq_json rq = paris
      ∧ rq_headers rq = {[ "X-Payment-TxHash" := "0xabc";
                           "X-Payment-Chain" := PAYMENT_CHAIN ]}.
Proof.
  split; [reflexivity|].
  destruct (call_api_single_request unmapped (failing (Exc ConnectionError "refused"))
              sample_repr production "/api/image" paris "post" POST (Some "0xabc") []
              eq_refl)
    as (rq & Hlog & Hverb & _ & _ & _ & Hjson & Hproof & _).
  exists rq. split; [exact Hlog|]. split; [exact Hverb|]. split; [exact Hjson|].
  apply Hproof; [reflexivity|discriminate].
Defined.

Lemma call_api_fixed_failures_witness :
  upper unmapped "GET" = verb_name GET
  ∧ answering (json_response 429 (PList [])) []
      (request_for GET production "/api/weather" paris None)
    = Return (json_response 429 (PList []))
  ∧ (status_code (json_response 429 (PList [])) = 429
     ∨ status_code (json_response 429 (PList [])) = 500)
  ∧ call_api unmapped (answering (json_response 429 (PList []))) sample_repr production
      "/api/weather" paris "GET" None []
    = (Return {[ "success" := PBool false;
                 "error" := PStr "Rate limit exceeded. Please try again later." ]},
       [request_for GET production "/api/weather" paris None]).
Proof.
  split; [reflexivity|]. split; [reflexivity|]. split; [left; reflexivity|].
  exact (call_api_fixed_failures unmapped (answering (json_response 429 (PList []))) sample_repr
           production "/api/weather" paris "GET" GET None []
           (json_response 429 (PList [])) eq_refl eq_refl (or_introl eq_refl)).
Defined.

Lemma call_api_bad_request_witness :
  upper unmapped "GET" = verb_name GET
  ∧ answering (text_response 400 "Bad Request") []
      (request_for GET production "/api/weather" None None)
    = Return (text_response 400 "Bad Request")
  ∧ status_code (text_response 400 "Bad Request") = 400
  ∧ call_api unmapped (answering (text_response 400 "Bad Request")) sample_repr production
      "/api/weather" None "GET" None []
    = (Return {[ "success" := PBool false; "error" := PStr "Bad Request" ]},
       [request_for GET production "/api/weather" None None]).
Proof.
  split; [reflexivity|]. split; [reflexivity|]. split; [reflexivity|].
  exact (proj2 (call_api_bad_request unmapped (answering (text_response 400 "Bad Request"))
                  sample_repr production "/api/weather" None "GET" GET None []
                  (text_response 400 "Bad Request") eq_refl eq_refl eq_refl)
               eq_refl).
Defined.

Lemma call_api_paid_retry_witness :
  upper unmapped "GET" = verb_name GET
  ∧ "0xabc" ≠ ""
  ∧ paywall forecast required_payment_body []
      (request_for GET production "/api/weather" paris None)
    = Return (json_response 402 (PDict required_payment_body))
  ∧ paywall forecast required_payment_body
      ([] ++ [request_for GET production "/api/weather" paris None])
      (request_for GET production "/api/weather" paris (Some "0xabc"))
    = Return (json_response 200 forecast)
  ∧ (first ← call_api unmapped (paywall forecast required_payment_body) sample_repr production
               "/api/weather" paris "GET" None;
     second ← call_api unmapped (paywall forecast required_payment_body) sample_repr production
                "/api/weather" paris "GET" (Some "0xabc");
     mret (first, second)) []
    = (Return (payment_required_outcome unmapped sample_repr required_payment_body,
               {[ "success" := PBool true;
                  "data" := forecast;
                  "payment_status" := PStr "completed" ]}),
       [] ++ [request_for GET production "/api/weather" paris None;
              request_for GET production "/api/weather" paris (Some "0xabc")]).
Proof.
  assert (Hproof : "0xabc" ≠ "") by discriminate.
  split; [reflexivity|]. split; [exact Hproof|]. split; [reflexivity|].
  split; [reflexivity|].
  exact (proj1 (call_api_paid_retry unmapped (paywall forecast required_payment_body)
                  sample_repr production "/api/weather" paris "GET" GET "0xabc" []
                  (json_response 402 (PDict required_payment_body))
                  required_payment_body (json_response 200 forecast)
                  eq_refl Hproof eq_refl eq_refl eq_refl eq_refl eq_refl)).
Defined.

Lemma search_ignores_case_witness :
  eq_nocase unmapped "WEATHER" "weather"
  ∧ search_services unmapped (answering (json_response 200 (PList catalogue))) production
      "WEATHER" []
    = search_services unmapped (answering (json_response 200 (PList catalogue))) production
        "weather" [].
Proof.
  split; [reflexivity|].
  exact (proj1 (search_ignores_case unmapped (answering (json_response 200 (PList catalogue)))
                  production [] "WEATHER" "weather" eq_refl)).
Defined.

Lemma search_services_sound_witness :
  fst (search_services unmapped (answering (json_response 200 (PList catalogue))) production
         "Finance" [])
  = Return [crypto_service]
  ∧ ∃ discovered items,
      fst (discover_services (answering (json_response 200 (PList catalogue)))
             production [])
      = Return discovered
      ∧ py_iter discovered = Return items
      ∧ sublist [crypto_service] items.
Proof.
  assert (Hs : fst (search_services unmapped (answering (json_response 200 (PList catalogue)))
                      production "Finance" [])
               = Return [crypto_service]) by reflexivity.
  split; [exact Hs|].
  destruct (search_services_sound unmapped (answering (json_response 200 (PList catalogue)))
              production "Finance" [] [crypto_service] Hs)
    as (discovered & items & Hd & Hi & Hsub & _).
  exists discovered, items. split; [exact Hd|]. split; [exact Hi | exact Hsub].
Defined.

Lemma search_services_narrowing_witness :
  str_contains (lower unmapped "api") (lower unmapped "Weather API") = true
  ∧ fst (search_services unmapped (answering (json_response 200 (PList catalogue))) production
           "Weather API" [])
    = Return [weather_service]
  ∧ ∃ more,
      fst (search_services unmapped (answering (json_response 200 (PList catalogue))) production
             "api" [])
      = Return more
      ∧ sublist [weather_service] more.
Proof.
  split; [reflexivity|]. split; [reflexivity|].
  exact (search_services_narrowing unmapped (answering (json_response 200 (PList catalogue)))
           production [] "api" "Weather API" [weather_service] eq_refl eq_refl).
Defined.

Lemma lookup_within_search_witness :
  fst (get_service_details unmapped (answering (json_response 200 (PList catalogue))) production
         "crypto api" [])
  = Return (Some crypto_service)
  ∧ fst (search_services unmapped (answering (json_response 200 (PList catalogue))) production
           "crypto api" [])
    = Return [crypto_service]
  ∧ crypto_service ∈ [crypto_service].
Proof.
  split; [reflexivity|]. split; [reflexivity|].
  exact (lookup_within_search unmapped (answering (json_response 200 (PList catalogue)))
           production [] "crypto api" crypto_service [crypto_service] eq_refl eq_refl).
Defined.

Lemma search_services_propagates_witness :
  fst (discover_services (failing (Exc ConnectionError "refused")) production [])
  = Raise (Exc ConnectionError "refused")
  ∧ fst (search_services unmapped (failing (Exc ConnectionError "refused")) production
           "weather" [])
    = Raise (Exc ConnectionError "refused")
  ∧ fst (get_service_details unmapped (failing (Exc ConnectionError "refused")) production
           "weather" [])
    = Return None.
Proof.
  split; [reflexivity|].
  exact (search_services_propagates unmapped (failing (Exc ConnectionError "refused"))
           production "weather" [] (Exc ConnectionError "refused") eq_refl).
Defined.

Lemma on_response_clears_witness :
  (∀ entry, _command_cache busy_plugin !! "x402_api_call" = Some entry →
            ∃ info, entry = PDict info)
  ∧ ∃ self' console',
      on_response sample_repr busy_plugin "done" []
      = (Return "done", self', console')
      ∧ _command_cache self' = ∅
      ∧ console' = [] ++ ["[x402 Bazaar] API call completed:";
                          "  Endpoint: /api/weather";
                          "  Cost: 0.02 USDC";
                          "  Payment: unknown"].
Proof.
  assert (Hentry : _command_cache busy_plugin !! "x402_api_call"
                   = Some (PDict weather_entry)) by reflexivity.
  assert (Hdict : ∀ entry, _command_cache busy_plugin !! "x402_api_call" = Some entry →
                           ∃ info, entry = PDict info).
  { intros entry H. rewrite Hentry in H. injection H as <-. by exists weather_entry. }
  split; [exact Hdict|].
  destruct (on_response_clears sample_repr busy_plugin "done" [] Hdict)
    as (self' & console' & Hcall & _ & _ & Hempty & _ & _ & Hlines).
  exists self', console'. split; [exact Hcall|]. split; [exact (Hempty eq_refl)|].
  exact (Hlines eq_refl weather_entry Hentry).
Defined.

Lemma handle_call_api_then_on_response_witness :
  _enabled register = true
  ∧ _command_cache register = ∅
  ∧ ∃ self1 console1 self2 console2,
      _handle_call_api unmapped (answering (json_response 402 (PDict required_payment_body)))
        sample_repr sample_dumps exc_str register "/api/weather" paris "GET" [] []
      = (Return (self1, console1),
         snd (call_api unmapped (answering (json_response 402 (PDict required_payment_body)))
                sample_repr (client register) "/api/weather" paris "GET" None []))
      ∧ on_response sample_repr self1 "done" console1 = (Return "done", self2, console2)
      ∧ _command_cache self2 = ∅.
Proof.
  split; [reflexivity|]. split; [reflexivity|].
  destruct (handle_call_api_then_on_response unmapped
              (answering (json_response 402 (PDict required_payment_body)))
              sample_repr sample_dumps exc_str register "/api/weather" paris "GET"
              [] [] "done" eq_refl eq_refl)
    as (self1 & console1 & self2 & console2 & Hcall & Hresponse & Hempty & _).
  exists self1, console1, self2, console2.
  split; [exact Hcall|]. split; [exact Hresponse | exact Hempty].
Defined.
